(** * push_to_dash.py: telemetry ingestion of the ground-station API server

    A shallow embedding of [parse_telem_line], [_idx_token], the body of the
    [telemetry_reader] loop and [push_to_gist], with the properties of the
    ingestion pipeline stated over it.

    Conventions.
    - A Python [str] is a [string]; a character is a code point below 256.
    - Python floats are kept abstract ([PyFloat]): the parser only moves the
      values [float(token)] returns around, it never computes with them.
    - Exceptions are values of [exn]; a computation that may raise returns a
      [result].  [try: ... except (IndexError, ValueError): pass] is
      [try_except] with the list of caught exceptions.
    - Wall-clock readings ([time.time()], file age) are rationals. *)

From Stdlib Require Import String Ascii List Bool Arith ZArith QArith Lia Lqa.
Import ListNotations.
Local Close Scope Q_scope.
Local Open Scope string_scope.
Local Open Scope list_scope.
Local Open Scope nat_scope.

(** ** Exceptions *)

Inductive exn : Type := IndexError | ValueError | OSError.

Inductive result (A : Type) : Type :=
| Ok (a : A)
| Raise (e : exn).
Arguments Ok {A} a.
Arguments Raise {A} e.

Definition rbind {A B} (m : result A) (k : A -> result B) : result B :=
  match m with
  | Ok a => k a
  | Raise e => Raise e
  end.

Declare Scope result_scope.
Delimit Scope result_scope with result.
Notation "x <- m ;; k" := (rbind m (fun x => k))
  (at level 61, m at next level, right associativity) : result_scope.

Definition exn_eqb (a b : exn) : bool :=
  match a, b with
  | IndexError, IndexError | ValueError, ValueError
  | OSError, OSError => true
  | _, _ => false
  end.

(** [try: body  except caught: handler] *)
Definition try_except {A} (body : result A) (caught : list exn)
           (handler : result A) : result A :=
  match body with
  | Ok a => Ok a
  | Raise e => if existsb (exn_eqb e) caught then handler else Raise e
  end.

(** ** Strings *)

(** [str.isspace] and the regex class [\s] on code points below 256. *)
Definition is_space (c : ascii) : bool :=
  let n := nat_of_ascii c in
  ((9 <=? n) && (n <=? 13)) || ((28 <=? n) && (n <=? 32))
  || (n =? 133) || (n =? 160).

(** The class [[\s,]] of the split pattern. *)
Definition is_sep (c : ascii) : bool :=
  is_space c || Ascii.eqb c ","%char.

Definition truthy (s : string) : bool :=
  match s with
  | EmptyString => false
  | String _ _ => true
  end.

Fixpoint lstrip (s : string) : string :=
  match s with
  | EmptyString => EmptyString
  | String c r => if is_space c then lstrip r else s
  end.

Fixpoint rstrip (s : string) : string :=
  match s with
  | EmptyString => EmptyString
  | String c r =>
      let r' := rstrip r in
      if is_space c && negb (truthy r') then EmptyString else String c r'
  end.

(** [s.strip()] *)
Definition strip (s : string) : string := rstrip (lstrip s).

(** [s.startswith(p)] *)
Definition startswith (s p : string) : bool := String.prefix p s.

(** [m in s] for strings: [m] occurs as a substring of [s]. *)
Fixpoint str_in (m s : string) : bool :=
  String.prefix m s ||
  match s with
  | EmptyString => false
  | String _ r => str_in m r
  end.

(** [re.split(r'[\s,]+', s)]: the pieces between maximal runs of separators,
    empty first and last pieces included. [cur] is the piece being read,
    [in_run] tells that the previous character was a separator. *)
Fixpoint split_go (in_run : bool) (cur : string) (s : string) : list string :=
  match s with
  | EmptyString => [cur]
  | String c r =>
      if is_sep c then
        if in_run then split_go true EmptyString r
        else cur :: split_go true EmptyString r
      else split_go false (cur ++ String c EmptyString) r
  end.

Definition re_split (s : string) : list string := split_go false EmptyString s.

(** ** Lists, the way the parser uses them *)

Definition len {A} (l : list A) : Z := Z.of_nat (length l).

(** [l[i]], negative indices counted from the end. *)
Definition getitem {A} (l : list A) (i : Z) : result A :=
  let j := if (i <? 0)%Z then (i + len l)%Z else i in
  if (j <? 0)%Z then Raise IndexError
  else match nth_error l (Z.to_nat j) with
       | Some x => Ok x
       | None => Raise IndexError
       end.

(** [x in l] *)
Definition list_in (x : string) (l : list string) : bool :=
  existsb (String.eqb x) l.

(** [l.index(x)] *)
Fixpoint list_index (x : string) (l : list string) : result Z :=
  match l with
  | [] => Raise ValueError
  | y :: r => if String.eqb y x then Ok 0%Z
              else (i <- list_index x r ;; Ok (i + 1)%Z)%result
  end.

(** [_idx_token]: the loop over [enumerate(parts)], [i] the running index. *)
Fixpoint idx_token_from (i : Z) (parts : list string) (token : string) : Z :=
  match parts with
  | [] => (-1)%Z
  | p :: r => if String.eqb p token || startswith p token then i
              else idx_token_from (i + 1)%Z r token
  end.

Definition _idx_token (parts : list string) (token : string) : Z :=
  idx_token_from 0%Z parts token.

(** ** Python floats *)

Class PyFloat : Type := {
  F : Type;
  float : string -> option F;      (* [None]: [float(s)] raises ValueError *)
  f_zero : F;                      (* the literal [0.0] *)
  f_std_pressure : F;              (* the literal [1013.25] *)
}.

(** ** The model *)

Section Model.
Context {PF : PyFloat}.

Definition float_of (s : string) : result F :=
  match float s with
  | Some v => Ok v
  | None => Raise ValueError
  end.

Record ms5611_t : Type := { temp : F; pressure : F; altitude : F }.
Record mpu6050_t : Type := { gx : F; gy : F; gz : F; ax : F; ay : F; az : F }.

(** The dict [data] of [parse_telem_line]: a key is present or not. *)
Record parsed : Type := {
  d_tmp : option F;
  d_gps : option (F * F * F);
  d_ms5611 : option ms5611_t;
  d_mpu6050 : option mpu6050_t;
}.

Definition empty_data : parsed :=
  {| d_tmp := None; d_gps := None; d_ms5611 := None; d_mpu6050 := None |}.

Definition set_tmp (v : F) (d : parsed) : parsed :=
  {| d_tmp := Some v; d_gps := d_gps d; d_ms5611 := d_ms5611 d;
     d_mpu6050 := d_mpu6050 d |}.
Definition set_gps (v : F * F * F) (d : parsed) : parsed :=
  {| d_tmp := d_tmp d; d_gps := Some v; d_ms5611 := d_ms5611 d;
     d_mpu6050 := d_mpu6050 d |}.
Definition set_ms5611 (v : ms5611_t) (d : parsed) : parsed :=
  {| d_tmp := d_tmp d; d_gps := d_gps d; d_ms5611 := Some v;
     d_mpu6050 := d_mpu6050 d |}.
Definition set_mpu6050 (v : mpu6050_t) (d : parsed) : parsed :=
  {| d_tmp := d_tmp d; d_gps := d_gps d; d_ms5611 := d_ms5611 d;
     d_mpu6050 := Some v |}.

(** [dict.get(key, default)] *)
Definition get_default {A} (o : option A) (default : A) : A :=
  match o with
  | Some v => v
  | None => default
  end.

(** [float(parts[i])] *)
Definition float_at (parts : list string) (i : Z) : result F :=
  (t <- getitem parts i ;; float_of t)%result.

Definition tmp_block (parts : list string) (data : parsed) : result parsed :=
  if list_in "TMP" parts then
    (idx <- list_index "TMP" parts ;;
     if (idx + 1 <? len parts)%Z then
       (v <- float_at parts (idx + 1) ;; Ok (set_tmp v data))
     else Ok data)%result
  else Ok data.

Definition gps_block (parts : list string) (data : parsed) : result parsed :=
  if list_in "GPS" parts then
    (idx <- list_index "GPS" parts ;;
     if (idx + 3 <=? len parts)%Z then
       (a <- float_at parts (idx + 1) ;;
        b <- float_at parts (idx + 2) ;;
        c <- float_at parts (idx + 3) ;;
        Ok (set_gps (a, b, c) data))
     else Ok data)%result
  else Ok data.

Definition ms5611_block (parts : list string) (data : parsed) : result parsed :=
  let idx := _idx_token parts "MS5611" in
  if (0 <=? idx)%Z then
    if (idx + 3 <=? len parts)%Z then
      (t <- float_at parts (idx + 1) ;;
       p <- float_at parts (idx + 2) ;;
       a <- float_at parts (idx + 3) ;;
       Ok (set_ms5611 {| temp := t; pressure := p; altitude := a |} data))%result
    else
      let temp := get_default (d_tmp data) f_zero in
      let gps := get_default (d_gps data) (f_zero, f_zero, f_zero) in
      Ok (set_ms5611 {| temp := temp; pressure := f_std_pressure;
                        altitude := snd gps |} data)
  else Ok data.

Definition mpu6050_block (parts : list string) (data : parsed) : result parsed :=
  if list_in "MPU6050" parts then
    (idx <- list_index "MPU6050" parts ;;
     if (idx + 6 <=? len parts)%Z then
       (v1 <- float_at parts (idx + 1) ;;
        v2 <- float_at parts (idx + 2) ;;
        v3 <- float_at parts (idx + 3) ;;
        v4 <- float_at parts (idx + 4) ;;
        v5 <- float_at parts (idx + 5) ;;
        v6 <- float_at parts (idx + 6) ;;
        Ok (set_mpu6050 {| gx := v1; gy := v2; gz := v3;
                           ax := v4; ay := v5; az := v6 |} data))
     else Ok data)%result
  else Ok data.

(** One [try: ... except (IndexError, ValueError): pass] block: when the
    body raises one of the two, [data] is what it was before the block. *)
Definition guarded (block : parsed -> result parsed) (data : parsed)
  : result parsed :=
  try_except (block data) [IndexError; ValueError] (Ok data).

Definition parse_telem_line (line : string) : result parsed :=
  let data := empty_data in
  let parts := re_split (strip line) in
  (data <- guarded (tmp_block parts) data ;;
   data <- guarded (gps_block parts) data ;;
   data <- guarded (ms5611_block parts) data ;;
   data <- guarded (mpu6050_block parts) data ;;
   Ok data)%result.

(** *** The shared snapshot *)

Inductive status_t : Type := offline | live | stale | no_file.

Record system_t : Type := { cpu : F; gpu_temp : F }.

Record telemetry : Type := {
  status : status_t;
  timestamp : option string;
  ms5611 : ms5611_t;
  mpu6050 : mpu6050_t;
  tmp : F;
  system : system_t;
}.

(** The value [latest_telemetry] is bound to when the module is loaded. *)
Definition initial_telemetry : telemetry :=
  {| status := offline;
     timestamp := None;
     ms5611 := {| temp := f_zero; pressure := f_zero; altitude := f_zero |};
     mpu6050 := {| gx := f_zero; gy := f_zero; gz := f_zero;
                   ax := f_zero; ay := f_zero; az := f_zero |};
     tmp := f_zero;
     system := {| cpu := f_zero; gpu_temp := f_zero |} |}.

Definition with_status (v : status_t) (t : telemetry) : telemetry :=
  {| status := v; timestamp := timestamp t; ms5611 := ms5611 t;
     mpu6050 := mpu6050 t; tmp := tmp t; system := system t |}.
Definition with_timestamp (v : option string) (t : telemetry) : telemetry :=
  {| status := status t; timestamp := v; ms5611 := ms5611 t;
     mpu6050 := mpu6050 t; tmp := tmp t; system := system t |}.
Definition with_ms5611 (v : ms5611_t) (t : telemetry) : telemetry :=
  {| status := status t; timestamp := timestamp t; ms5611 := v;
     mpu6050 := mpu6050 t; tmp := tmp t; system := system t |}.
Definition with_mpu6050 (v : mpu6050_t) (t : telemetry) : telemetry :=
  {| status := status t; timestamp := timestamp t; ms5611 := ms5611 t;
     mpu6050 := v; tmp := tmp t; system := system t |}.
Definition with_tmp (v : F) (t : telemetry) : telemetry :=
  {| status := status t; timestamp := timestamp t; ms5611 := ms5611 t;
     mpu6050 := mpu6050 t; tmp := v; system := system t |}.
Definition with_system (v : system_t) (t : telemetry) : telemetry :=
  {| status := status t; timestamp := timestamp t; ms5611 := ms5611 t;
     mpu6050 := mpu6050 t; tmp := tmp t; system := v |}.

(** *** The reader thread *)

(** How a write of a JSON file ends: the file holds the new content; [open]
    raised and the file is as it was; or the write broke off after [open]
    had truncated the file, which then holds no complete document.  The
    writers ([write_local_json], [save_users]) catch the exception and
    print it. *)
Inductive write_outcome : Type := Written | Not_opened | Cut_short.

(** What the reader thread can see and change: the shared dict, its local
    [last_gist_push], and what it has sent out.  [lock_trace] records the
    value of the shared dict each time the thread leaves a [with lock:]
    block that wrote to it, newest first. *)
Record world : Type := {
  latest_telemetry : telemetry;
  last_gist_push : Q;
  gist_calls : list (Q * telemetry);     (* PATCH requests, newest first *)
  local_json : option telemetry;         (* what telemetry.json holds *)
  lock_trace : list telemetry;
}.

Definition initial_world : world :=
  {| latest_telemetry := initial_telemetry;
     last_gist_push := 0%Q;
     gist_calls := [];
     local_json := None;
     lock_trace := [] |}.

Definition clear_trace (w : world) : world :=
  {| latest_telemetry := latest_telemetry w;
     last_gist_push := last_gist_push w;
     gist_calls := gist_calls w;
     local_json := local_json w;
     lock_trace := [] |}.

(** State and exceptions: an exception keeps the writes made before it. *)
Definition Cmd (A : Type) : Type := world -> world * result A.

Definition cret {A} (a : A) : Cmd A := fun w => (w, Ok a).

Definition cbind {A B} (m : Cmd A) (k : A -> Cmd B) : Cmd B :=
  fun w =>
    match m w with
    | (w', Ok a) => k a w'
    | (w', Raise e) => (w', Raise e)
    end.

Definition lift {A} (r : result A) : Cmd A := fun w => (w, r).

(** The world a command leaves behind. *)
Definition exec {A} (c : Cmd A) (w : world) : world := fst (c w).

Declare Scope cmd_scope.
Delimit Scope cmd_scope with cmd.
Notation "x <- m ;; k" := (cbind m (fun x => k))
  (at level 61, m at next level, right associativity) : cmd_scope.
Notation "m ;; k" := (cbind m (fun _ => k))
  (at level 61, right associativity) : cmd_scope.

(** [with lock: latest_telemetry[...] = ...] *)
Definition with_lock (f : telemetry -> telemetry) : Cmd unit :=
  fun w =>
    let t := f (latest_telemetry w) in
    ({| latest_telemetry := t;
        last_gist_push := last_gist_push w;
        gist_calls := gist_calls w;
        local_json := local_json w;
        lock_trace := t :: lock_trace w |}, Ok tt).

(** [with lock: snapshot = dict(latest_telemetry)] *)
Definition copy_locked : Cmd telemetry :=
  fun w => (w, Ok (latest_telemetry w)).

(** [write_local_json]; [WRITE_LOCAL_JSON] is the constant [True] of line
    52.  [outcome] tells how the write ends.  When it fails, the
    [except Exception] handler prints the exception (line 227), and [report]
    tells how that [print] ends: an exception it raises leaves the
    function. *)
Definition write_local_json (outcome : write_outcome) (report : result unit)
           (data : telemetry) : Cmd unit :=
  fun w =>
    ({| latest_telemetry := latest_telemetry w;
        last_gist_push := last_gist_push w;
        gist_calls := gist_calls w;
        local_json :=
          match outcome with
          | Written => Some data
          | Not_opened => local_json w
          | Cut_short => None
          end;
        lock_trace := lock_trace w |},
     match outcome with
     | Written => Ok tt
     | Not_opened | Cut_short => report
     end).

Definition get_last_gist_push : Cmd Q :=
  fun w => (w, Ok (last_gist_push w)).

Definition set_last_gist_push (now : Q) : Cmd unit :=
  fun w =>
    ({| latest_telemetry := latest_telemetry w;
        last_gist_push := now;
        gist_calls := gist_calls w;
        local_json := local_json w;
        lock_trace := lock_trace w |}, Ok tt).

(** The [try:] statement of [push_to_gist] with its two handlers: the
    request goes out through [urllib.request.urlopen(req, timeout=10)] and
    is logged with the clock reading of the cycle that made it.  [outcome]
    tells how the statement ends: [Ok] when the call or a handler returns,
    [Raise] when an exception leaves a handler ([e.read()] at line 212 is
    not guarded) and so leaves [push_to_gist]. *)
Definition urlopen_patch (outcome : result unit) (now : Q)
           (data : telemetry) : Cmd unit :=
  fun w =>
    ({| latest_telemetry := latest_telemetry w;
        last_gist_push := last_gist_push w;
        gist_calls := (now, data) :: gist_calls w;
        local_json := local_json w;
        lock_trace := lock_trace w |}, outcome).

Definition STALE_TIMEOUT : Q := 120%Q.
Definition GIST_PUSH_INTERVAL : Q := 5%Q.
Definition GIST_ID : string := "5da070ed5aa3c9b8268eaac884b4a199".

Definition push_to_gist (GITHUB_TOKEN : string) (outcome : result unit)
           (now : Q) (data : telemetry) : Cmd unit :=
  if negb (truthy GITHUB_TOKEN) || negb (truthy GIST_ID) then cret tt
  else
    let token := strip GITHUB_TOKEN in
    if negb (truthy token) then cret tt
    else urlopen_patch outcome now data.

(** What one pass of the loop meets outside the process: what it reads,
    and how its write and its request end. *)
Record env : Type := {
  e_cpu : F;                            (* psutil.cpu_percent(interval=None) *)
  e_gpu : F;                            (* get_gpu_temp() *)
  e_exists : bool;                      (* os.path.exists(TELEM_FILE) *)
  e_file_age : result Q;                (* time.time() - os.path.getmtime(..) *)
  e_readlines : result (list string);   (* open(TELEM_FILE).readlines() *)
  e_utcnow : string;                    (* datetime.now(utc).isoformat() *)
  e_now : Q;                            (* time.time() before the push test *)
  e_json_write : write_outcome;         (* the write of telemetry.json *)
  e_json_report : result unit;          (* print(..) at line 227, if it fails *)
  e_push : result unit;                 (* the request, if one is made *)
}.

(** The [for line in reversed(lines)] loop; the argument is the reversed
    list, the triple is [(last_ms5611, last_mpu6050, last_tmp)]. *)
Fixpoint scan_lines (ls : list string) (st : string * string * string)
  : string * string * string :=
  match ls with
  | [] => st
  | line :: rest =>
      let stripped := strip line in
      if negb (truthy stripped) then scan_lines rest st
      else
        let '(last_ms5611, last_mpu6050, last_tmp) := st in
        let last_ms5611 :=
          if str_in "MS5611" stripped && negb (truthy last_ms5611)
          then stripped else last_ms5611 in
        let last_mpu6050 :=
          if str_in "MPU6050" stripped && negb (truthy last_mpu6050)
          then stripped else last_mpu6050 in
        let last_tmp :=
          if str_in "TMP" stripped && negb (truthy last_tmp)
          then stripped else last_tmp in
        if truthy last_ms5611 && truthy last_mpu6050 && truthy last_tmp
        then (last_ms5611, last_mpu6050, last_tmp)
        else scan_lines rest (last_ms5611, last_mpu6050, last_tmp)
  end.

Definition merge_ms5611 (last_ms5611 : string) : Cmd unit :=
  if truthy last_ms5611 then
    (parsed <- lift (parse_telem_line last_ms5611) ;;
     match d_ms5611 parsed with
     | Some v => with_lock (with_ms5611 v)
     | None => cret tt
     end)%cmd
  else cret tt.

Definition merge_mpu6050 (last_mpu6050 : string) : Cmd unit :=
  if truthy last_mpu6050 then
    (parsed <- lift (parse_telem_line last_mpu6050) ;;
     match d_mpu6050 parsed with
     | Some v => with_lock (with_mpu6050 v)
     | None => cret tt
     end)%cmd
  else cret tt.

Definition merge_tmp (last_tmp : string) : Cmd unit :=
  if truthy last_tmp then
    (parsed <- lift (parse_telem_line last_tmp) ;;
     match d_tmp parsed with
     | Some v => with_lock (with_tmp v)
     | None => cret tt
     end)%cmd
  else cret tt.

Definition stamp (v : status_t) (e : env) : Cmd unit :=
  with_lock (fun t => with_timestamp (Some (e_utcnow e)) (with_status v t)).

(** Lines 273-329 of the [try:] body: host metrics, then the log file. *)
Definition ingest (e : env) : Cmd unit :=
  (with_lock (with_system {| cpu := e_cpu e; gpu_temp := e_gpu e |}) ;;
   if e_exists e then
     file_age <- lift (e_file_age e) ;;
     if negb (Qle_bool file_age STALE_TIMEOUT) then stamp stale e
     else
       lines <- lift (e_readlines e) ;;
       let '(last_ms5611, last_mpu6050, last_tmp) :=
         scan_lines (rev lines) ("", "", "") in
       stamp live e ;;
       merge_ms5611 last_ms5611 ;;
       merge_mpu6050 last_mpu6050 ;;
       merge_tmp last_tmp
   else stamp no_file e)%cmd.

(** Lines 331-339: the local mirror and the rate-limited push. *)
Definition publish (GITHUB_TOKEN : string) (e : env) : Cmd unit :=
  (let now := e_now e in
   snapshot <- copy_locked ;;
   write_local_json (e_json_write e) (e_json_report e) snapshot ;;
   last <- get_last_gist_push ;;
   if truthy GITHUB_TOKEN && Qle_bool GIST_PUSH_INTERVAL (now - last)%Q then
     push_to_gist GITHUB_TOKEN (e_push e) now snapshot ;;
     set_last_gist_push now
   else cret tt)%cmd.

(** The body of [try:] in [telemetry_reader]. *)
Definition reader_try (GITHUB_TOKEN : string) (e : env) : Cmd unit :=
  (ingest e ;; publish GITHUB_TOKEN e)%cmd.

(** One pass of [while True:]: the world the [try:] body leaves, whether it
    ran to its end or an exception cut it short; the handler at line 342
    prints and changes nothing.  Should that [print] raise, the thread ends
    in this same world: a run of the thread is a finite list of passes
    either way. *)
Definition telemetry_reader_pass (GITHUB_TOKEN : string) (e : env)
  : world -> world :=
  fun w => fst (reader_try GITHUB_TOKEN e w).

(** The pass ran to the end of the [try:] body. *)
Definition completed (GITHUB_TOKEN : string) (e : env) (w : world) : bool :=
  match snd (reader_try GITHUB_TOKEN e w) with
  | Ok _ => true
  | Raise _ => false
  end.

(** The ingestion half (lines 273-329) ran to its end. *)
Definition ingested (e : env) (w : world) : bool :=
  match snd (ingest e w) with
  | Ok _ => true
  | Raise _ => false
  end.

(** The loop, one environment reading per pass. *)
Fixpoint telemetry_reader (GITHUB_TOKEN : string) (es : list env) (w : world)
  : world :=
  match es with
  | [] => w
  | e :: rest =>
      telemetry_reader GITHUB_TOKEN rest (telemetry_reader_pass GITHUB_TOKEN e w)
  end.

(** *** Readers of the snapshot *)

(** [TelemHandler.do_GET] on [/api/telemetry] takes the lock and serialises
    the dict: one atomic read.  A schedule orders the reads of the handler
    threads against the lock sections of one pass of the reader. *)
Inductive event : Type := Section_done | Handler_read.

(** [pending]: the values the shared dict will take at the reader's next
    lock sections; [cur]: its value now.  The result lists what the
    handlers read, in schedule order. *)
Fixpoint observe (sched : list event) (pending : list telemetry)
         (cur : telemetry) : list telemetry :=
  match sched with
  | [] => []
  | Handler_read :: s => cur :: observe s pending cur
  | Section_done :: s =>
      match pending with
      | [] => observe s [] cur
      | t :: p => observe s p t
      end
  end.

(** The values the shared dict takes during one pass started in [w]. *)
Definition pass_states (GITHUB_TOKEN : string) (e : env) (w : world)
  : list telemetry :=
  rev (lock_trace (telemetry_reader_pass GITHUB_TOKEN e (clear_trace w))).

Definition observations (GITHUB_TOKEN : string) (e : env) (w : world)
           (sched : list event) : list telemetry :=
  observe sched (pass_states GITHUB_TOKEN e w) (latest_telemetry w).

End Model.

(** ** Vocabulary of the statements *)

Section Statements.
Context {PF : PyFloat}.

(** The fields [parse_telem_line] yields; it never raises (see
    [parse_telem_line_fields] below), so the second case is never taken. *)
Definition line_fields (line : string) : parsed :=
  match parse_telem_line line with
  | Ok d => d
  | Raise _ => empty_data
  end.

(** The tokens of a line, as [parse_telem_line] computes them. *)
Definition tokens (line : string) : list string := re_split (strip line).

(** Position of the first token equal to [m]. *)
Fixpoint first_eq (m : string) (parts : list string) : option nat :=
  match parts with
  | [] => None
  | p :: r => if String.eqb p m then Some 0 else option_map S (first_eq m r)
  end.

(** Position of the first token that is [m] or starts with [m]. *)
Fixpoint first_prefixed (m : string) (parts : list string) : option nat :=
  match parts with
  | [] => None
  | p :: r => if String.prefix m p then Some 0
              else option_map S (first_prefixed m r)
  end.

(** The [k]-th token after position [i] read as a number: [None] when there
    is no such token or it is not numeric. *)
Definition num_after (parts : list string) (i k : nat) : option F :=
  match nth_error parts (i + k) with
  | Some t => float t
  | None => None
  end.

(** How many tokens follow position [i]. *)
Definition trailing (parts : list string) (i : nat) : nat :=
  length parts - S i.

Definition obind {A B} (o : option A) (k : A -> option B) : option B :=
  match o with
  | Some a => k a
  | None => None
  end.

(** A marker followed by the required count of numeric tokens. *)
Definition reading_tmp (parts : list string) : option F :=
  obind (first_eq "TMP" parts) (fun i => num_after parts i 1).

Definition reading_gps (parts : list string) : option (F * F * F) :=
  obind (first_eq "GPS" parts) (fun i =>
  obind (num_after parts i 1) (fun a =>
  obind (num_after parts i 2) (fun b =>
  obind (num_after parts i 3) (fun c => Some (a, b, c))))).

Definition reading_mpu6050 (parts : list string) : option mpu6050_t :=
  obind (first_eq "MPU6050" parts) (fun i =>
  obind (num_after parts i 1) (fun v1 =>
  obind (num_after parts i 2) (fun v2 =>
  obind (num_after parts i 3) (fun v3 =>
  obind (num_after parts i 4) (fun v4 =>
  obind (num_after parts i 5) (fun v5 =>
  obind (num_after parts i 6) (fun v6 =>
    Some {| gx := v1; gy := v2; gz := v3;
            ax := v4; ay := v5; az := v6 |}))))))).

Definition three_after (parts : list string) (i : nat) : option ms5611_t :=
  obind (num_after parts i 1) (fun t =>
  obind (num_after parts i 2) (fun p =>
  obind (num_after parts i 3) (fun a =>
    Some {| temp := t; pressure := p; altitude := a |}))).

(** The substitution policy for a pressure marker without its values. *)
Definition substitute (own_tmp : option F) (own_gps : option (F * F * F))
  : ms5611_t :=
  {| temp := get_default own_tmp f_zero;
     pressure := f_std_pressure;
     altitude := snd (get_default own_gps (f_zero, f_zero, f_zero)) |}.

(** The pressure field as the code computes it: the [else] branch of
    [idx + 3 <= len(parts)] (line 146) is taken with no token and with one
    token after the marker. *)
Definition reading_ms5611 (parts : list string) : option ms5611_t :=
  match first_prefixed "MS5611" parts with
  | None => None
  | Some i =>
      if trailing parts i <=? 1
      then Some (substitute (reading_tmp parts) (reading_gps parts))
      else three_after parts i
  end.

(** The three markers the loop looks for. *)
Inductive marker : Type := PressureSensor | Imu | AmbientTemp.

Definition marker_text (m : marker) : string :=
  match m with
  | PressureSensor => "MS5611"
  | Imu => "MPU6050"
  | AmbientTemp => "TMP"
  end.

(** Whether [parse_telem_line] takes token [tok] for marker [m]. *)
Definition marks (m : marker) (tok : string) : bool :=
  match m with
  | PressureSensor => String.prefix "MS5611" tok
  | Imu => String.eqb tok "MPU6050"
  | AmbientTemp => String.eqb tok "TMP"
  end.

(** The most recent non-blank line of the file that contains the text of
    [m], stripped. *)
Definition select (m : marker) (lines : list string) : option string :=
  find (str_in (marker_text m)) (filter truthy (map strip (rev lines))).

(** The loop variable that started as [cur], after the scan of the reversed
    list [ls] for the text [m]. *)
Definition pick (cur m : string) (ls : list string) : string :=
  if truthy cur then cur
  else get_default (find (str_in m) (filter truthy (map strip ls))) "".

(** What a live pass reads from the file for each field group: the group's
    own field on the line selected for the group's marker. *)
Definition file_ms5611 (lines : list string) : option ms5611_t :=
  obind (select PressureSensor lines) (fun l => d_ms5611 (line_fields l)).
Definition file_mpu6050 (lines : list string) : option mpu6050_t :=
  obind (select Imu lines) (fun l => d_mpu6050 (line_fields l)).
Definition file_tmp (lines : list string) : option F :=
  obind (select AmbientTemp lines) (fun l => d_tmp (line_fields l)).

(** A locked write of one field group, when the line gave a value. *)
Definition merge_step {A} (f : A -> telemetry -> telemetry) (o : option A)
           (w : world) : world :=
  match o with
  | Some v => exec (with_lock (f v)) w
  | None => w
  end.

(** The snapshot [t] with the three sensor groups taken from the file where
    the file gives them. *)
Definition merge_file (lines : list string) (t : telemetry) : telemetry :=
  {| status := status t;
     timestamp := timestamp t;
     ms5611 := get_default (file_ms5611 lines) (ms5611 t);
     mpu6050 := get_default (file_mpu6050 lines) (mpu6050 t);
     tmp := get_default (file_tmp lines) (tmp t);
     system := system t |}.

Definition host_metrics (e : env) : system_t :=
  {| cpu := e_cpu e; gpu_temp := e_gpu e |}.

Definition group_unchanged (m : marker) (old new : telemetry) : Prop :=
  match m with
  | PressureSensor => ms5611 new = ms5611 old
  | Imu => mpu6050 new = mpu6050 old
  | AmbientTemp => tmp new = tmp old
  end.

(** [obs] shows every field group either as in [old] or as in [new], and
    status and timestamp from the same one of the two. *)
Definition groupwise_old_or_new (old new obs : telemetry) : Prop :=
  (system obs = system old \/ system obs = system new) /\
  ((status obs = status old /\ timestamp obs = timestamp old) \/
   (status obs = status new /\ timestamp obs = timestamp new)) /\
  (ms5611 obs = ms5611 old \/ ms5611 obs = ms5611 new) /\
  (mpu6050 obs = mpu6050 old \/ mpu6050 obs = mpu6050 new) /\
  (tmp obs = tmp old \/ tmp obs = tmp new).

(** Clock readings at which PATCH requests were issued, newest first. *)
Definition push_times (w : world) : list Q := map fst (gist_calls w).

(** [p] lies in the window [[t, t + 5)]. *)
Definition in_window (t p : Q) : bool :=
  Qle_bool t p && negb (Qle_bool (t + GIST_PUSH_INTERVAL)%Q p).

Definition pushes_in_window (t : Q) (w : world) : nat :=
  length (filter (in_window t) (push_times w)).

End Statements.

(** ** A concrete reading of [float], for closed examples

    Decimal literals [[+-]digits[.digits]] read as exact rationals in lowest
    terms; every other token is rejected.  On decimal literals and on tokens
    that are not numbers at all this agrees with Python's [float] up to
    rounding; the examples below use no other tokens. *)

Definition digit_of (c : ascii) : option Z :=
  let n := nat_of_ascii c in
  if (48 <=? n) && (n <=? 57) then Some (Z.of_nat (n - 48)) else None.

(** [m]: the digits read so far as a number; [frac]: how many of them stand
    after the point; [ndig]: how many digits were read. *)
Fixpoint dec_scan (s : string) (m : Z) (seen_dot : bool) (frac ndig : nat)
  : option Q :=
  match s with
  | EmptyString =>
      if ndig =? 0 then None
      else Some (Qred (Qmake m (Z.to_pos (10 ^ Z.of_nat frac))))
  | String c r =>
      if Ascii.eqb c "."%char then
        if seen_dot then None else dec_scan r m true frac ndig
      else
        match digit_of c with
        | Some d =>
            dec_scan r (10 * m + d)%Z seen_dot
                     (if seen_dot then S frac else frac) (S ndig)
        | None => None
        end
  end.

Definition dec_float (s : string) : option Q :=
  match s with
  | String "-"%char r => option_map Qopp (dec_scan r 0%Z false 0 0)
  | String "+"%char r => dec_scan r 0%Z false 0 0
  | _ => dec_scan s 0%Z false 0 0
  end.

Definition dec : PyFloat :=
  {| F := Q;
     float := dec_float;
     f_zero := 0%Q;
     f_std_pressure := Qred (Qmake 101325 100) |}.

(** ** Example inputs *)

(** A line as [readlines] returns it, with its newline. *)
Definition eol (s : string) : string := s ++ String "010"%char EmptyString.

Definition pressure_reading (t p a : Q) : @ms5611_t dec :=
  @Build_ms5611_t dec t p a.

Definition imu_reading (v1 v2 v3 v4 v5 v6 : Q) : @mpu6050_t dec :=
  @Build_mpu6050_t dec v1 v2 v3 v4 v5 v6.

(** A pass that finds the log file, [age] seconds old, holding [lines]. *)
Definition reading (age : Q) (lines : list string) (utcnow : string)
           (now : Q) : @env dec :=
  @Build_env dec 37%Q 48%Q true (Ok age) (Ok lines) utcnow now
             Written (Ok tt) (Ok tt).

(** A pass that finds the log file but cannot open it. *)
Definition unreadable (utcnow : string) (now : Q) : @env dec :=
  @Build_env dec 37%Q 48%Q true (Ok 1%Q) (Raise OSError) utcnow now
             Written (Ok tt) (Ok tt).

(** A pass that finds no log file. *)
Definition missing (utcnow : string) (now : Q) : @env dec :=
  @Build_env dec 37%Q 48%Q false (Raise OSError) (Raise OSError) utcnow now
             Written (Ok tt) (Ok tt).

Definition world0 : @world dec := @initial_world dec.

(** The simulator's line format, pressure marker last. *)
Definition pi_line : string :=
  eol "BAT 4.50 0.0  MPU6050 1 2 3 4 5 6 GPS 10 20 30 TMP 21.5 MS5611>".

Definition one_line_pass : @env dec :=
  reading 10%Q [pi_line] "2026-01-01T00:00:00+00:00" 1000%Q.

Definition same_file_next_pass : @env dec :=
  reading 11%Q [pi_line] "2026-01-01T00:00:01+00:00" 1001%Q.

Definition stale_pass : @env dec :=
  reading 300%Q [pi_line] "2026-01-01T00:05:00+00:00" 1300%Q.

(** TMP and GPS on one line, the bare pressure marker on the next. *)
Definition split_lines : list string :=
  [eol "GPS 10 20 30 TMP 21.5"; eol "MS5611>"].

Definition split_pass : @env dec :=
  reading 10%Q split_lines "2026-01-01T00:00:00+00:00" 1000%Q.

(** The pressure line also carries a good IMU reading; the most recent
    line with the IMU marker does not. *)
Definition mixed_lines : list string :=
  [eol "MPU6050 1 2 3 4 5 6 MS5611 7 8 9"; eol "MPU6050 bad"].

Definition mixed_pass : @env dec :=
  reading 10%Q mixed_lines "2026-01-01T00:00:00+00:00" 1000%Q.

Definition pressure_pass : @env dec :=
  reading 10%Q [eol "MS5611 1 2 3"] "2026-01-01T00:00:00+00:00" 1000%Q.

(** A handler reads after the reader's second lock section. *)
Definition early_read : list event :=
  [Section_done; Section_done; Handler_read; Section_done].

Definition early_snapshot : @telemetry dec :=
  with_timestamp (Some "2026-01-01T00:00:00+00:00")
    (with_status live
       (with_system (@Build_system_t dec 37%Q 48%Q) initial_telemetry)).

Definition tmpx_pass : @env dec :=
  reading 10%Q [eol "TMP 21.5"; eol "TMPX 30"]
          "2026-01-01T00:00:00+00:00" 1000%Q.

Definition suffixed_marker_pass : @env dec :=
  reading 10%Q [eol "MS5611> 4 5 6"] "2026-01-01T00:00:00+00:00" 1000%Q.

(** ** The rest of the module *)

(** *** More of [str] *)

(** [c.lower()] on code points below 256. *)
Definition lower_char (c : ascii) : ascii :=
  let n := nat_of_ascii c in
  if ((65 <=? n) && (n <=? 90))
     || ((192 <=? n) && (n <=? 222) && negb (n =? 215))
  then ascii_of_nat (n + 32) else c.

(** [s.lower()] *)
Fixpoint lower (s : string) : string :=
  match s with
  | EmptyString => EmptyString
  | String c r => String (lower_char c) (lower r)
  end.

Fixpoint has_char (c : ascii) (s : string) : bool :=
  match s with
  | EmptyString => false
  | String d r => Ascii.eqb d c || has_char c r
  end.

(** [s.replace(old, new)] for a non-empty [old]: occurrences are replaced
    from the left, without overlap. [skip] counts the characters of a
    matched occurrence still to be dropped. *)
Fixpoint replace_go (old new : string) (skip : nat) (s : string) : string :=
  match s with
  | EmptyString => EmptyString
  | String c r =>
      match skip with
      | S k => replace_go old new k r
      | 0 =>
          if String.prefix old s
          then new ++ replace_go old new (String.length old - 1) r
          else String c (replace_go old new 0 r)
      end
  end.

(** With an empty [old], [new] goes before every character and at the
    end. *)
Fixpoint intersperse (new s : string) : string :=
  match s with
  | EmptyString => new
  | String c r => new ++ String c (intersperse new r)
  end.

Definition str_replace (old new s : string) : string :=
  if truthy old then replace_go old new 0 s else intersperse new s.

(** [s.split('?')[0]] *)
Fixpoint before_query (s : string) : string :=
  match s with
  | EmptyString => EmptyString
  | String c r =>
      if Ascii.eqb c "?"%char then EmptyString else String c (before_query r)
  end.

(** *** [_load_token] *)

(** What [_load_token] finds: the environment variable, and for a file name
    next to the script whether it is a file and what reading it gives. *)
Record token_env : Type := {
  te_environ : option string;          (* os.environ.get('GITHUB_TOKEN') *)
  te_isfile : string -> bool;          (* os.path.isfile(path) *)
  te_read : string -> result string;   (* open(path, 'r').read() *)
}.

(** The [for name in (...)] loop. *)
Fixpoint load_token_from (te : token_env) (names : list string) : string :=
  match names with
  | [] => ""
  | name :: rest =>
      if te_isfile te name then
        match te_read te name with
        | Ok content => strip content
        | Raise _ => load_token_from te rest
        end
      else load_token_from te rest
  end.

Definition _load_token (te : token_env) : string :=
  let t := strip (match te_environ te with Some v => v | None => "" end) in
  if truthy t then t
  else load_token_from te ["GITHUB_TOKEN"; "gist_token.txt"].

(** *** [get_gpu_temp] and the shape of a pass *)

Section Host.
Context {PF : PyFloat}.

(** The text ['C] followed by a newline. *)
Definition degrees_suffix : string :=
  String "'"%char (String "C"%char (String "010"%char EmptyString)).

(** [readline]: what [os.popen('vcgencmd measure_temp').readline()] gives. *)
Definition get_gpu_temp (readline : result string) : F :=
  match (res <- readline ;;
         float_of (str_replace degrees_suffix ""
                     (str_replace "temp=" "" res)))%result with
  | Ok v => v
  | Raise _ => f_zero
  end.

(** The pass gets as far as [readlines] and the call returns. *)
Definition reads_file (e : env) : bool :=
  e_exists e &&
  match e_file_age e with
  | Ok age => Qle_bool age STALE_TIMEOUT
  | Raise _ => false
  end &&
  match e_readlines e with
  | Ok _ => true
  | Raise _ => false
  end.

(** [push_to_gist], if the pass calls it, returns. *)
Definition push_returns (e : env) : bool :=
  match e_push e with
  | Ok _ => true
  | Raise _ => false
  end.

(** [write_local_json] returns. *)
Definition write_returns (e : env) : bool :=
  match e_json_write e with
  | Written => true
  | Not_opened | Cut_short =>
      match e_json_report e with
      | Ok _ => true
      | Raise _ => false
      end
  end.

(** What [telemetry.json] holds after [write_local_json] in world [w]. *)
Definition mirror_after (e : env) (w : world) : option telemetry :=
  match e_json_write e with
  | Written => Some (latest_telemetry w)
  | Not_opened => local_json w
  | Cut_short => None
  end.

(** The three marker texts do not occur in any line. *)
Definition no_marker_text (lines : list string) : Prop :=
  forall m l, In l lines -> str_in (marker_text m) (strip l) = false.

End Host.

(** *** Vocabulary for the parser and the scan *)

(** A token [parse_telem_line] takes for one of its four markers. *)
Definition marker_token (tok : string) : bool :=
  String.eqb tok "TMP" || String.eqb tok "GPS" || String.eqb tok "MPU6050"
  || String.prefix "MS5611" tok.

(** [s] is the stripped last line of [lines] that contains the text of
    [m]. *)
Definition last_with (m : marker) (lines : list string) (s : string) : Prop :=
  exists before line after,
    lines = before ++ line :: after /\
    s = strip line /\
    str_in (marker_text m) s = true /\
    forall l, In l after -> str_in (marker_text m) (strip l) = false.

(** What the scan holds for [m] when it ends: that line, or the empty
    string when no line contains the text. *)
Definition scan_result_for (m : marker) (lines : list string) (s : string)
  : Prop :=
  if truthy s then last_with m lines s
  else forall l, In l lines -> str_in (marker_text m) (strip l) = false.

(** *** User accounts *)

(** An entry of [users.json] or of [DEF_USERS]: a dict with string values
    under ['id'] and ['role'], and possibly under ['pw'] and ['created']. *)
Record user : Type := {
  u_id : string;
  u_pw : option string;
  u_role : string;
  u_created : option string;
}.

Definition DEF_USERS : list user :=
  [ {| u_id := "flyboysam"; u_pw := Some "Airplane11!"; u_role := "admin";
       u_created := Some "SYSTEM" |};
    {| u_id := "guest"; u_pw := Some "guest123"; u_role := "guest";
       u_created := Some "2026-02-22" |} ].

(** [load_users]; [file] is what [json.load] gives for [users.json] when it
    gives a list, [None] when the file is missing, unreadable, not JSON or
    not a list. *)
Definition load_users (file : option (list user)) : list user :=
  match file with
  | Some (u :: l) => u :: l
  | _ => DEF_USERS
  end.

(** The JSON object of a POST body, as far as the handlers read it: a key
    is [None] when absent or null, else it holds a string. *)
Record body : Type := {
  b_id : option string;
  b_pw : option string;
  b_role : option string;
  b_adminId : option string;
  b_adminPw : option string;
}.

(** [x or d] for a string or [None]. *)
Definition str_or (x : option string) (d : string) : string :=
  match x with
  | Some s => if truthy s then s else d
  | None => d
  end.

Inductive error : Type :=
| Invalid_credentials
| Admin_required
| Username_required
| Password_too_short
| Username_exists
| Protected_user
| Cannot_remove_own_account.

(** What the handler sends. *)
Inductive reply : Type :=
| Auth_ok (id role created : string)   (* 200, ok with the public user *)
| Done                                 (* 200, ok *)
| Refused (code : nat) (err : error)   (* code, not ok with a message *)
| Not_found.                           (* 404, text/plain *)

(** [u['id'].lower() == uid.lower() and u.get('pw') == pw] *)
Definition credentials_match (uid pw : string) (u : user) : bool :=
  String.eqb (lower (u_id u)) (lower uid) &&
  match u_pw u with
  | Some p => String.eqb p pw
  | None => false
  end.

(** [u['id'].lower() == uid.lower()] *)
Definition same_name (uid : string) (u : user) : bool :=
  String.eqb (lower (u_id u)) (lower uid).

Definition is_admin (o : option user) : bool :=
  match o with
  | Some a => String.eqb (u_role a) "admin"
  | None => false
  end.

(** [do_POST]: the reply, and the list handed to [save_users] if any.
    [today] is [datetime.now(timezone.utc).strftime('%Y-%m-%d')]. *)
Definition do_POST (raw_path : string) (b : body) (file : option (list user))
           (today : string) : reply * option (list user) :=
  let path := before_query raw_path in
  if String.eqb path "/api/auth" then
    let uid := strip (str_or (b_id b) "") in
    let pw := str_or (b_pw b) "" in
    let users_list := load_users file in
    match find (credentials_match uid pw) users_list with
    | Some m =>
        (Auth_ok (u_id m) (u_role m)
                 (match u_created m with Some c => c | None => "" end), None)
    | None => (Refused 401 Invalid_credentials, None)
    end
  else if String.eqb path "/api/users" then
    let admin_id := strip (str_or (b_adminId b) "") in
    let admin_pw := str_or (b_adminPw b) "" in
    let users_list := load_users file in
    let admin := find (credentials_match admin_id admin_pw) users_list in
    if negb (is_admin admin) then (Refused 401 Admin_required, None)
    else
      let uid := strip (str_or (b_id b) "") in
      let pw := str_or (b_pw b) "" in
      let role := str_or (Some (strip (str_or (b_role b) "guest"))) "guest" in
      if negb (truthy uid) || (String.length uid <? 3)
      then (Refused 400 Username_required, None)
      else if String.length pw <? 6
      then (Refused 400 Password_too_short, None)
      else if existsb (same_name uid) users_list
      then (Refused 400 Username_exists, None)
      else
        let users_list :=
          users_list ++ [ {| u_id := uid; u_pw := Some pw; u_role := role;
                             u_created := Some today |} ] in
        (Done, Some users_list)
  else if String.eqb path "/api/users/delete" then
    let admin_id := strip (str_or (b_adminId b) "") in
    let admin_pw := str_or (b_adminPw b) "" in
    let users_list := load_users file in
    let admin := find (credentials_match admin_id admin_pw) users_list in
    if negb (is_admin admin) then (Refused 401 Admin_required, None)
    else
      let target_id := strip (str_or (b_id b) "") in
      if String.eqb (lower target_id) "flyboysam"
      then (Refused 400 Protected_user, None)
      else if String.eqb (lower target_id) (lower admin_id)
      then (Refused 400 Cannot_remove_own_account, None)
      else
        let users_list :=
          filter (fun u => negb (same_name target_id u)) users_list in
        (Done, Some users_list)
  else (Not_found, None).

(** [users.json] after the request.  [save_users] catches every exception
    of its write and prints it; what the file holds then follows [outcome]:
    the list is in the file, the file is as it was, or the file is
    truncated and the next [json.load] fails. *)
Definition file_after (file : option (list user))
           (saved : option (list user)) (outcome : write_outcome)
  : option (list user) :=
  match saved with
  | Some l =>
      match outcome with
      | Written => Some l
      | Not_opened => file
      | Cut_short => None
      end
  | None => file
  end.

Definition names (l : list user) : list string :=
  map (fun u => lower (u_id u)) l.

(** What the handlers make of the body. *)
Definition req_uid (b : body) : string := strip (str_or (b_id b) "").
Definition req_pw (b : body) : string := str_or (b_pw b) "".
Definition req_role (b : body) : string :=
  str_or (Some (strip (str_or (b_role b) "guest"))) "guest".
Definition req_admin_id (b : body) : string :=
  strip (str_or (b_adminId b) "").
Definition req_admin_pw (b : body) : string := str_or (b_adminPw b) "".

(** The user whose credentials the request presents as admin. *)
Definition acting_admin (b : body) (users : list user) : option user :=
  find (credentials_match (req_admin_id b) (req_admin_pw b)) users.

Definition new_user (b : body) (today : string) : user :=
  {| u_id := req_uid b; u_pw := Some (req_pw b); u_role := req_role b;
     u_created := Some today |}.

Definition auth_body (id pw : string) : body :=
  {| b_id := Some id; b_pw := Some pw; b_role := None;
     b_adminId := None; b_adminPw := None |}.

(** *** More example inputs *)

(** The token comes from the environment, with blanks around it. *)
Definition env_token : token_env :=
  {| te_environ := Some " tok ";
     te_isfile := fun _ => false;
     te_read := fun _ => Raise OSError |}.

Definition no_file_pass : @env dec := missing "2026-01-01T00:00:02+00:00" 1002%Q.

(** A request is due and made, and an exception leaves [push_to_gist]; the
    next pass comes one second later. *)
Definition escaped_push_pass : @env dec :=
  @Build_env dec 37%Q 48%Q false (Raise OSError) (Raise OSError)
             "2026-01-01T00:00:00+00:00" 1000%Q Written (Ok tt)
             (Raise OSError).

Definition pass_after_escape : @env dec :=
  missing "2026-01-01T00:00:01+00:00" 1001%Q.

(** The log file is fresh again but cannot be opened. *)
Definition fresh_unreadable_pass : @env dec :=
  unreadable "2026-01-01T00:05:01+00:00" 1301%Q.

Definition failed_pass : @env dec :=
  unreadable "2026-01-01T00:00:02+00:00" 1002%Q.

Definition gps_only_pass : @env dec :=
  reading 10%Q [eol "GPS 10 20 30"] "2026-01-01T00:00:02+00:00" 1002%Q.

Definition add_request : body :=
  {| b_id := Some " Pilot "; b_pw := Some "secret1"; b_role := None;
     b_adminId := Some "FlyBoySam"; b_adminPw := Some "Airplane11!" |}.

Definition delete_request : body :=
  {| b_id := Some "Guest"; b_pw := None; b_role := None;
     b_adminId := Some "flyboysam"; b_adminPw := Some "Airplane11!" |}.

Definition owner : user :=
  {| u_id := "flyboysam"; u_pw := Some "Airplane11!"; u_role := "admin";
     u_created := Some "SYSTEM" |}.

Definition pilot : user :=
  {| u_id := "Pilot"; u_pw := Some "secret1"; u_role := "guest";
     u_created := Some "2026-03-01" |}.

(** ** Proofs *)

Section Proofs.
Context {PF : PyFloat}.

(** *** Tokens and markers *)

Lemma eqb_prefix (p t : string) :
  String.eqb p t = true -> String.prefix t p = true.
Proof.
  intros H. apply String.eqb_eq in H. subst p.
  induction t as [|c t IH]; cbn; [reflexivity|].
  destruct (ascii_dec c c); [exact IH | congruence].
Qed.

Lemma marker_test (p t : string) :
  String.eqb p t || startswith p t = String.prefix t p.
Proof.
  unfold startswith. destruct (String.eqb p t) eqn:E; cbn; [|reflexivity].
  symmetry. now apply eqb_prefix.
Qed.

Lemma idx_token_from_spec (j : Z) (parts : list string) (t : string) :
  idx_token_from j parts t =
  match first_prefixed t parts with
  | Some i => (j + Z.of_nat i)%Z
  | None => (-1)%Z
  end.
Proof.
  revert j. induction parts as [|p r IH]; intros j; cbn; [reflexivity|].
  rewrite marker_test. destruct (String.prefix t p).
  - cbn. lia.
  - rewrite IH. destruct (first_prefixed t r); cbn; lia.
Qed.

Lemma list_in_first_eq (m : string) (parts : list string) :
  list_in m parts =
  match first_eq m parts with Some _ => true | None => false end.
Proof.
  unfold list_in. induction parts as [|p r IH]; cbn; [reflexivity|].
  rewrite String.eqb_sym. destruct (String.eqb p m); cbn; [reflexivity|].
  rewrite IH. now destruct (first_eq m r).
Qed.

Lemma list_index_first_eq (m : string) (parts : list string) :
  list_index m parts =
  match first_eq m parts with
  | Some i => Ok (Z.of_nat i)
  | None => Raise ValueError
  end.
Proof.
  induction parts as [|p r IH]; cbn; [reflexivity|].
  destruct (String.eqb p m); cbn; [reflexivity|].
  rewrite IH. destruct (first_eq m r); cbn; [|reflexivity].
  f_equal. lia.
Qed.

Lemma first_eq_none (m : string) (parts : list string) :
  ~ In m parts -> first_eq m parts = None.
Proof.
  induction parts as [|p r IH]; cbn; [reflexivity|]. intros H.
  destruct (String.eqb_spec p m) as [->|_]; [tauto|].
  rewrite IH by tauto. reflexivity.
Qed.

Lemma first_prefixed_none (m : string) (parts : list string) :
  (forall tok, In tok parts -> String.prefix m tok = false) ->
  first_prefixed m parts = None.
Proof.
  induction parts as [|p r IH]; cbn; [reflexivity|]. intros H.
  rewrite (H p (or_introl eq_refl)).
  rewrite IH; [reflexivity|]. intros tok Hin. apply H. now right.
Qed.

Lemma getitem_nat {A} (l : list A) (n : nat) :
  getitem l (Z.of_nat n) =
  match nth_error l n with
  | Some x => Ok x
  | None => Raise IndexError
  end.
Proof.
  unfold getitem.
  destruct (Z.ltb_spec (Z.of_nat n) 0); [lia|].
  destruct (Z.ltb_spec (Z.of_nat n) 0); [lia|].
  now rewrite Nat2Z.id.
Qed.

(** [float(parts[i + k])] either yields the number [num_after] describes,
    or raises one of the two exceptions the parser catches. *)
Lemma float_at_cases (parts : list string) (i k : nat) (z : Z) :
  z = Z.of_nat (i + k) ->
  (exists v, num_after parts i k = Some v /\ float_at parts z = Ok v) \/
  (num_after parts i k = None /\
   (float_at parts z = Raise IndexError \/
    float_at parts z = Raise ValueError)).
Proof.
  intros ->. unfold float_at, num_after. rewrite getitem_nat.
  destruct (nth_error parts (i + k)) as [t|]; cbn.
  - unfold float_of. destruct (float t) as [v|]; [left; eauto | right; auto].
  - right; auto.
Qed.

Lemma num_after_out (parts : list string) (i k : nat) :
  length parts <= i + k -> num_after parts i k = None.
Proof.
  intros H. unfold num_after.
  now rewrite (proj2 (nth_error_None parts (i + k)) H).
Qed.

(** *** The four blocks of [parse_telem_line] *)

Ltac float_step parts i k z :=
  let v := fresh "v" in
  let Hn := fresh "Hn" in
  let Hf := fresh "Hf" in
  destruct (float_at_cases parts i k z ltac:(lia))
    as [(v & Hn & Hf) | (Hn & [Hf | Hf])];
  rewrite Hf, Hn; cbn [rbind obind try_except existsb exn_eqb orb];
  try reflexivity.

Lemma tmp_block_spec (parts : list string) (d : parsed) :
  guarded (tmp_block parts) d =
  Ok (match reading_tmp parts with Some v => set_tmp v d | None => d end).
Proof.
  unfold guarded, tmp_block, reading_tmp.
  rewrite list_in_first_eq, list_index_first_eq.
  destruct (first_eq "TMP" parts) as [i|] eqn:E;
    cbn [rbind obind try_except]; [|reflexivity].
  destruct (Z.ltb_spec (Z.of_nat i + 1) (len parts)) as [Hlt|Hge].
  - float_step parts i 1 (Z.of_nat i + 1)%Z.
  - unfold len in Hge. rewrite num_after_out by lia. reflexivity.
Qed.

Lemma gps_block_spec (parts : list string) (d : parsed) :
  guarded (gps_block parts) d =
  Ok (match reading_gps parts with Some v => set_gps v d | None => d end).
Proof.
  unfold guarded, gps_block, reading_gps.
  rewrite list_in_first_eq, list_index_first_eq.
  destruct (first_eq "GPS" parts) as [i|] eqn:E;
    cbn [rbind obind try_except]; [|reflexivity].
  destruct (Z.leb_spec (Z.of_nat i + 3) (len parts)) as [Hle|Hgt].
  - float_step parts i 1 (Z.of_nat i + 1)%Z.
    float_step parts i 2 (Z.of_nat i + 2)%Z.
    float_step parts i 3 (Z.of_nat i + 3)%Z.
  - unfold len in Hgt.
    destruct (num_after parts i 1), (num_after parts i 2);
      cbn [obind]; try reflexivity.
    rewrite num_after_out by lia. reflexivity.
Qed.

Lemma mpu6050_block_spec (parts : list string) (d : parsed) :
  guarded (mpu6050_block parts) d =
  Ok (match reading_mpu6050 parts with
      | Some v => set_mpu6050 v d
      | None => d
      end).
Proof.
  unfold guarded, mpu6050_block, reading_mpu6050.
  rewrite list_in_first_eq, list_index_first_eq.
  destruct (first_eq "MPU6050" parts) as [i|] eqn:E;
    cbn [rbind obind try_except]; [|reflexivity].
  destruct (Z.leb_spec (Z.of_nat i + 6) (len parts)) as [Hle|Hgt].
  - float_step parts i 1 (Z.of_nat i + 1)%Z.
    float_step parts i 2 (Z.of_nat i + 2)%Z.
    float_step parts i 3 (Z.of_nat i + 3)%Z.
    float_step parts i 4 (Z.of_nat i + 4)%Z.
    float_step parts i 5 (Z.of_nat i + 5)%Z.
    float_step parts i 6 (Z.of_nat i + 6)%Z.
  - unfold len in Hgt.
    destruct (num_after parts i 1), (num_after parts i 2),
      (num_after parts i 3), (num_after parts i 4), (num_after parts i 5);
      cbn [obind]; try reflexivity.
    rewrite num_after_out by lia. reflexivity.
Qed.

Lemma ms5611_block_spec (parts : list string) (d : parsed) :
  guarded (ms5611_block parts) d =
  Ok (match first_prefixed "MS5611" parts with
      | None => d
      | Some i =>
          if trailing parts i <=? 1
          then set_ms5611 (substitute (d_tmp d) (d_gps d)) d
          else match three_after parts i with
               | Some v => set_ms5611 v d
               | None => d
               end
      end).
Proof.
  unfold guarded, ms5611_block, _idx_token, three_after, trailing.
  cbv zeta. rewrite idx_token_from_spec.
  destruct (first_prefixed "MS5611" parts) as [i|] eqn:E;
    [|reflexivity].
  destruct (Z.leb_spec 0 (0 + Z.of_nat i)) as [_|Hneg]; [|lia].
  destruct (Z.leb_spec (0 + Z.of_nat i + 3) (len parts)) as [Hle|Hgt];
    unfold len in *.
  - destruct (Nat.leb_spec (length parts - S i) 1) as [Hfew|_]; [lia|].
    float_step parts i 1 (0 + Z.of_nat i + 1)%Z.
    float_step parts i 2 (0 + Z.of_nat i + 2)%Z.
    float_step parts i 3 (0 + Z.of_nat i + 3)%Z.
  - destruct (Nat.leb_spec (length parts - S i) 1) as [_|Hmany]; [|lia].
    reflexivity.
Qed.

(** [parse_telem_line] returns, and returns the four readings. *)
Lemma parse_telem_line_spec (line : string) :
  parse_telem_line line =
  Ok {| d_tmp := reading_tmp (tokens line);
        d_gps := reading_gps (tokens line);
        d_ms5611 := reading_ms5611 (tokens line);
        d_mpu6050 := reading_mpu6050 (tokens line) |}.
Proof.
  unfold parse_telem_line, tokens. cbv zeta.
  rewrite tmp_block_spec. cbn [rbind].
  rewrite gps_block_spec. cbn [rbind].
  rewrite ms5611_block_spec. cbn [rbind].
  rewrite mpu6050_block_spec. cbn [rbind].
  unfold reading_ms5611.
  destruct (reading_tmp _), (reading_gps _),
    (first_prefixed "MS5611" _) as [i|], (reading_mpu6050 _);
    try destruct (trailing _ i <=? 1);
    try destruct (three_after _ i); reflexivity.
Qed.

Lemma parse_telem_line_fields (line : string) :
  parse_telem_line line = Ok (line_fields line).
Proof.
  unfold line_fields. now rewrite parse_telem_line_spec.
Qed.

Lemma line_fields_spec (line : string) :
  line_fields line =
  {| d_tmp := reading_tmp (tokens line);
     d_gps := reading_gps (tokens line);
     d_ms5611 := reading_ms5611 (tokens line);
     d_mpu6050 := reading_mpu6050 (tokens line) |}.
Proof.
  unfold line_fields. now rewrite parse_telem_line_spec.
Qed.

(** *** The backward scan *)

Lemma scan_lines_pick (ls : list string) (a b c : string) :
  scan_lines ls (a, b, c) =
  (pick a "MS5611" ls, pick b "MPU6050" ls, pick c "TMP" ls).
Proof.
  revert a b c. induction ls as [|line rest IH]; intros a b c.
  - unfold pick. cbn. now destruct a, b, c.
  - cbn [scan_lines]. unfold pick. cbn [map filter].
    destruct (truthy (strip line)) eqn:Hs; cbn [negb].
    + cbn [find].
      destruct (str_in "MS5611" (strip line)),
        (str_in "MPU6050" (strip line)), (str_in "TMP" (strip line)),
        (truthy a) eqn:Ha, (truthy b) eqn:Hb, (truthy c) eqn:Hc;
        cbn [andb negb get_default];
        rewrite ?Hs, ?Ha, ?Hb, ?Hc; cbn [andb];
        try reflexivity;
        rewrite IH; unfold pick; rewrite ?Hs, ?Ha, ?Hb, ?Hc; reflexivity.
    + now rewrite IH.
Qed.

Lemma select_truthy (m : marker) (lines : list string) (l : string) :
  select m lines = Some l -> truthy l = true.
Proof.
  unfold select. intros H. apply find_some in H as [H _].
  now apply filter_In in H as [_ H].
Qed.

(** The loop with its early [break] finds, for each marker on its own, the
    most recent non-blank line containing it. *)
Lemma scan_lines_select (lines : list string) :
  scan_lines (rev lines) ("", "", "") =
  (get_default (select PressureSensor lines) "",
   get_default (select Imu lines) "",
   get_default (select AmbientTemp lines) "").
Proof.
  rewrite scan_lines_pick. reflexivity.
Qed.

(** *** One pass of the reader *)

Lemma merge_ms5611_run (lines : list string) (w : world) :
  merge_ms5611 (get_default (select PressureSensor lines) "") w =
  (merge_step with_ms5611 (file_ms5611 lines) w, Ok tt).
Proof.
  unfold merge_ms5611, file_ms5611.
  destruct (select PressureSensor lines) as [l|] eqn:E; cbn; [|reflexivity].
  rewrite (select_truthy _ _ _ E). unfold cbind, lift.
  rewrite parse_telem_line_fields.
  now destruct (d_ms5611 (line_fields l)).
Qed.

Lemma merge_mpu6050_run (lines : list string) (w : world) :
  merge_mpu6050 (get_default (select Imu lines) "") w =
  (merge_step with_mpu6050 (file_mpu6050 lines) w, Ok tt).
Proof.
  unfold merge_mpu6050, file_mpu6050.
  destruct (select Imu lines) as [l|] eqn:E; cbn; [|reflexivity].
  rewrite (select_truthy _ _ _ E). unfold cbind, lift.
  rewrite parse_telem_line_fields.
  now destruct (d_mpu6050 (line_fields l)).
Qed.

Lemma merge_tmp_run (lines : list string) (w : world) :
  merge_tmp (get_default (select AmbientTemp lines) "") w =
  (merge_step with_tmp (file_tmp lines) w, Ok tt).
Proof.
  unfold merge_tmp, file_tmp.
  destruct (select AmbientTemp lines) as [l|] eqn:E; cbn; [|reflexivity].
  rewrite (select_truthy _ _ _ E). unfold cbind, lift.
  rewrite parse_telem_line_fields.
  now destruct (d_tmp (line_fields l)).
Qed.

Lemma ingest_no_file (e : env) (w : world) :
  e_exists e = false ->
  ingest e w =
  (exec (stamp no_file e) (exec (with_lock (with_system (host_metrics e))) w),
   Ok tt).
Proof.
  intros Hx. unfold ingest, cbind. cbn. now rewrite Hx.
Qed.

Lemma ingest_mtime_fails (e : env) (w : world) (x : exn) :
  e_exists e = true -> e_file_age e = Raise x ->
  ingest e w = (exec (with_lock (with_system (host_metrics e))) w, Raise x).
Proof.
  intros Hx Ha. unfold ingest, cbind, lift. cbn. now rewrite Hx, Ha.
Qed.

Lemma ingest_stale (e : env) (w : world) (age : Q) :
  e_exists e = true -> e_file_age e = Ok age ->
  Qle_bool age STALE_TIMEOUT = false ->
  ingest e w =
  (exec (stamp stale e) (exec (with_lock (with_system (host_metrics e))) w),
   Ok tt).
Proof.
  intros Hx Ha Hs. unfold ingest, cbind, lift. cbn. now rewrite Hx, Ha, Hs.
Qed.

Lemma ingest_read_fails (e : env) (w : world) (age : Q) (x : exn) :
  e_exists e = true -> e_file_age e = Ok age ->
  Qle_bool age STALE_TIMEOUT = true -> e_readlines e = Raise x ->
  ingest e w = (exec (with_lock (with_system (host_metrics e))) w, Raise x).
Proof.
  intros Hx Ha Hs Hr. unfold ingest, cbind, lift. cbn.
  now rewrite Hx, Ha, Hs, Hr.
Qed.

Lemma ingest_live (e : env) (w : world) (age : Q) (lines : list string) :
  e_exists e = true -> e_file_age e = Ok age ->
  Qle_bool age STALE_TIMEOUT = true -> e_readlines e = Ok lines ->
  ingest e w =
  (merge_step with_tmp (file_tmp lines)
     (merge_step with_mpu6050 (file_mpu6050 lines)
        (merge_step with_ms5611 (file_ms5611 lines)
           (exec (stamp live e)
              (exec (with_lock (with_system (host_metrics e))) w)))),
   Ok tt).
Proof.
  intros Hx Ha Hs Hr. unfold ingest, cbind, lift.
  cbn [with_lock]. rewrite Hx, Ha, Hs, Hr. cbn [negb].
  rewrite scan_lines_select.
  change (stamp live e ?w0) with (exec (stamp live e) w0, Ok tt).
  cbv beta iota. rewrite merge_ms5611_run. cbv beta iota.
  rewrite merge_mpu6050_run. cbv beta iota.
  rewrite merge_tmp_run. reflexivity.
Qed.

Ltac ingest_split e w :=
  let age := fresh "age" in
  let x := fresh "x" in
  let lines := fresh "lines" in
  let Hx := fresh "Hx" in
  let Ha := fresh "Ha" in
  let Hs := fresh "Hs" in
  let Hr := fresh "Hr" in
  destruct (e_exists e) eqn:Hx;
  [ destruct (e_file_age e) as [age|x] eqn:Ha;
    [ destruct (Qle_bool age STALE_TIMEOUT) eqn:Hs;
      [ destruct (e_readlines e) as [lines|x] eqn:Hr;
        [ rewrite (ingest_live e w age lines Hx Ha Hs Hr)
        | rewrite (ingest_read_fails e w age x Hx Ha Hs Hr) ]
      | rewrite (ingest_stale e w age Hx Ha Hs) ]
    | rewrite (ingest_mtime_fails e w x Hx Ha) ]
  | rewrite (ingest_no_file e w Hx) ].

(** The ingestion half leaves the push bookkeeping alone. *)
Lemma ingest_frame (e : env) (w : world) :
  last_gist_push (fst (ingest e w)) = last_gist_push w /\
  gist_calls (fst (ingest e w)) = gist_calls w.
Proof.
  ingest_split e w; cbn [fst]; try (split; reflexivity).
  destruct (file_tmp lines), (file_mpu6050 lines), (file_ms5611 lines);
    split; reflexivity.
Qed.

(** The publishing half, spelled out. *)
Lemma publish_spec (GITHUB_TOKEN : string) (e : env) (w : world) :
  publish GITHUB_TOKEN e w =
  if negb (write_returns e)
  then ({| latest_telemetry := latest_telemetry w;
           last_gist_push := last_gist_push w;
           gist_calls := gist_calls w;
           local_json := mirror_after e w;
           lock_trace := lock_trace w |},
        match e_json_report e with Ok _ => Ok tt | Raise x => Raise x end)
  else
  if truthy GITHUB_TOKEN &&
     Qle_bool GIST_PUSH_INTERVAL (e_now e - last_gist_push w)%Q
  then
    if truthy (strip GITHUB_TOKEN)
    then ({| latest_telemetry := latest_telemetry w;
             last_gist_push :=
               if push_returns e then e_now e else last_gist_push w;
             gist_calls := (e_now e, latest_telemetry w) :: gist_calls w;
             local_json := mirror_after e w;
             lock_trace := lock_trace w |},
          match e_push e with Ok _ => Ok tt | Raise x => Raise x end)
    else ({| latest_telemetry := latest_telemetry w;
             last_gist_push := e_now e;
             gist_calls := gist_calls w;
             local_json := mirror_after e w;
             lock_trace := lock_trace w |}, Ok tt)
  else ({| latest_telemetry := latest_telemetry w;
           last_gist_push := last_gist_push w;
           gist_calls := gist_calls w;
           local_json := mirror_after e w;
           lock_trace := lock_trace w |}, Ok tt).
Proof.
  unfold publish, cbind, copy_locked, write_local_json, get_last_gist_push,
    mirror_after, push_returns, write_returns.
  cbv beta iota zeta. cbn [last_gist_push].
  destruct (e_json_write e);
    [|destruct (e_json_report e) as [[]|x]; [|reflexivity]..]; cbn [negb].
  all: destruct (truthy GITHUB_TOKEN) eqn:Ht; cbn [andb]; [|reflexivity].
  all: destruct (Qle_bool GIST_PUSH_INTERVAL (e_now e - last_gist_push w)%Q);
    [|reflexivity].
  all: unfold push_to_gist; rewrite Ht; cbn [negb truthy GIST_ID orb].
  all: destruct (truthy (strip GITHUB_TOKEN)); cbn [negb]; [|reflexivity].
  all: unfold urlopen_patch; destruct (e_push e) as [[]|y]; reflexivity.
Qed.

(** The publishing half leaves the snapshot and the lock trace alone. *)
Lemma publish_frame (GITHUB_TOKEN : string) (e : env) (w : world) :
  latest_telemetry (fst (publish GITHUB_TOKEN e w)) = latest_telemetry w /\
  lock_trace (fst (publish GITHUB_TOKEN e w)) = lock_trace w.
Proof.
  rewrite publish_spec.
  destruct (negb (write_returns e));
    [|destruct (truthy GITHUB_TOKEN && _);
      [destruct (truthy (strip GITHUB_TOKEN))|]]; split; reflexivity.
Qed.

Lemma pass_world (GITHUB_TOKEN : string) (e : env) (w : world) :
  telemetry_reader_pass GITHUB_TOKEN e w =
  if ingested e w then fst (publish GITHUB_TOKEN e (fst (ingest e w)))
  else fst (ingest e w).
Proof.
  unfold telemetry_reader_pass, reader_try, cbind, ingested.
  destruct (ingest e w) as [w' [u|x]]; reflexivity.
Qed.

Lemma completed_spec (GITHUB_TOKEN : string) (e : env) (w : world) :
  completed GITHUB_TOKEN e w =
  ingested e w &&
  match snd (publish GITHUB_TOKEN e (fst (ingest e w))) with
  | Ok _ => true
  | Raise _ => false
  end.
Proof.
  unfold completed, reader_try, cbind, ingested.
  destruct (ingest e w) as [w' [u|x]]; reflexivity.
Qed.

Lemma completed_ingested (GITHUB_TOKEN : string) (e : env) (w : world) :
  completed GITHUB_TOKEN e w = true -> ingested e w = true.
Proof.
  rewrite completed_spec. intros H. now apply andb_prop in H as [H _].
Qed.

Lemma pass_latest (GITHUB_TOKEN : string) (e : env) (w : world) :
  latest_telemetry (telemetry_reader_pass GITHUB_TOKEN e w) =
  latest_telemetry (fst (ingest e w)).
Proof.
  rewrite pass_world. destruct (ingested e w); [|reflexivity].
  apply publish_frame.
Qed.

Lemma pass_trace (GITHUB_TOKEN : string) (e : env) (w : world) :
  lock_trace (telemetry_reader_pass GITHUB_TOKEN e w) =
  lock_trace (fst (ingest e w)).
Proof.
  rewrite pass_world. destruct (ingested e w); [|reflexivity].
  apply publish_frame.
Qed.

(** What one pass does to the push bookkeeping: nothing; or a push is due
    and [last_gist_push] moves to the clock reading, with or without a
    request; or the request is made and the exception that leaves
    [push_to_gist] skips the update of [last_gist_push]. *)
Lemma pass_pushes (GITHUB_TOKEN : string) (e : env) (w : world) :
  let w' := telemetry_reader_pass GITHUB_TOKEN e w in
  (last_gist_push w' = last_gist_push w /\ gist_calls w' = gist_calls w) \/
  (truthy GITHUB_TOKEN = true /\
   Qle_bool GIST_PUSH_INTERVAL (e_now e - last_gist_push w)%Q = true /\
   last_gist_push w' = e_now e /\
   (gist_calls w' = gist_calls w \/
    exists t, gist_calls w' = (e_now e, t) :: gist_calls w)) \/
  (truthy GITHUB_TOKEN = true /\
   push_returns e = false /\
   last_gist_push w' = last_gist_push w /\
   exists t, gist_calls w' = (e_now e, t) :: gist_calls w).
Proof.
  cbv zeta. rewrite pass_world.
  destruct (ingest_frame e w) as [Hl Hg].
  destruct (ingested e w); [|left; auto].
  rewrite publish_spec, Hl.
  destruct (negb (write_returns e)); [left; auto|].
  destruct (truthy GITHUB_TOKEN) eqn:Ht; cbn [andb]; [|left; auto].
  destruct (Qle_bool GIST_PUSH_INTERVAL (e_now e - last_gist_push w)%Q)
    eqn:Hq; [|left; auto].
  destruct (truthy (strip GITHUB_TOKEN));
    cbn [fst last_gist_push gist_calls]; rewrite ?Hg.
  - destruct (push_returns e) eqn:Hp.
    + right. left. repeat split; eauto.
    + right. right. repeat split; eauto.
  - right. left. repeat split; auto.
Qed.

Lemma ingest_live_latest (e : env) (w : world) (age : Q)
      (lines : list string) :
  e_exists e = true -> e_file_age e = Ok age ->
  Qle_bool age STALE_TIMEOUT = true -> e_readlines e = Ok lines ->
  latest_telemetry (fst (ingest e w)) =
  merge_file lines
    (with_timestamp (Some (e_utcnow e))
       (with_status live
          (with_system (host_metrics e) (latest_telemetry w)))).
Proof.
  intros Hx Ha Hs Hr. rewrite (ingest_live e w age lines Hx Ha Hs Hr).
  unfold merge_file.
  destruct (file_tmp lines), (file_mpu6050 lines), (file_ms5611 lines);
    reflexivity.
Qed.

Lemma find_app_skip {A} (f : A -> bool) (l1 l2 : list A) :
  (forall x, In x l1 -> f x = false) -> find f (l1 ++ l2) = find f l2.
Proof.
  induction l1 as [|a l1 IH]; intros H; cbn; [reflexivity|].
  rewrite (H a (or_introl eq_refl)). apply IH. intros x Hx. apply H. now right.
Qed.

Lemma find_app_found {A} (f : A -> bool) (l1 l2 : list A) (x : A) :
  find f l1 = Some x -> find f (l1 ++ l2) = Some x.
Proof.
  induction l1 as [|a l1 IH]; cbn; [discriminate|].
  destruct (f a); [trivial | exact IH].
Qed.

Lemma select_app (m : marker) (earlier later : list string) :
  select m (earlier ++ later) =
  match select m later with
  | Some l => Some l
  | None => select m earlier
  end.
Proof.
  unfold select. rewrite rev_app_distr, map_app, filter_app.
  destruct (find _ (filter truthy (map strip (rev later)))) as [l|] eqn:E.
  - now apply find_app_found.
  - apply find_app_skip. intros x Hx. exact (find_none _ _ E x Hx).
Qed.

(** *** [strip] is idempotent *)

Lemma lstrip_head (s : string) :
  match lstrip s with
  | EmptyString => True
  | String c _ => is_space c = false
  end.
Proof.
  induction s as [|c r IH]; cbn; [exact I|].
  destruct (is_space c) eqn:E; [exact IH | exact E].
Qed.

Lemma lstrip_fixed (s : string) :
  match s with
  | EmptyString => True
  | String c _ => is_space c = false
  end -> lstrip s = s.
Proof.
  destruct s as [|c r]; cbn; [reflexivity|]. now intros ->.
Qed.

Lemma rstrip_head (s : string) :
  match s with
  | EmptyString => True
  | String c _ => is_space c = false
  end ->
  match rstrip s with
  | EmptyString => True
  | String c _ => is_space c = false
  end.
Proof.
  destruct s as [|c r]; cbn; [trivial|]. intros H. now rewrite H.
Qed.

Lemma rstrip_idem (s : string) : rstrip (rstrip s) = rstrip s.
Proof.
  induction s as [|c r IH]; cbn; [reflexivity|].
  destruct (is_space c && negb (truthy (rstrip r))) eqn:E; [reflexivity|].
  cbn. now rewrite IH, E.
Qed.

Lemma strip_idem (s : string) : strip (strip s) = strip s.
Proof.
  unfold strip.
  rewrite (lstrip_fixed (rstrip (lstrip s))).
  - apply rstrip_idem.
  - apply rstrip_head, lstrip_head.
Qed.

Lemma tokens_strip (line : string) : tokens (strip line) = tokens line.
Proof.
  unfold tokens. now rewrite strip_idem.
Qed.

Lemma str_in_truthy (m : marker) (s : string) :
  str_in (marker_text m) s = true -> truthy s = true.
Proof.
  destruct s; [|reflexivity]. destruct m; cbn; discriminate.
Qed.

(** The last line containing the text of [m] is the one selected. *)
Lemma select_most_recent (m : marker) (before after : list string)
      (line : string) :
  str_in (marker_text m) (strip line) = true ->
  (forall l, In l after -> str_in (marker_text m) (strip l) = false) ->
  select m (before ++ line :: after) = Some (strip line).
Proof.
  intros Hin Hafter. unfold select.
  rewrite rev_app_distr. cbn [rev]. rewrite <- !app_assoc.
  rewrite !map_app, !filter_app. rewrite find_app_skip.
  - cbn. rewrite (str_in_truthy m _ Hin). cbn. now rewrite Hin.
  - intros x Hx. apply filter_In in Hx as [Hx _].
    apply in_map_iff in Hx as (l & <- & Hl). apply Hafter.
    now apply in_rev.
Qed.

(** *** LineParser *)

(** C4 (as amended).  For every line, [parse_telem_line] returns without
    raising.  The TMP, GPS and IMU fields are present exactly when the first
    token equal to the marker is followed by 1, 3, 6 tokens that all read as
    floats, and then hold those floats; otherwise the field is absent.  The
    pressure field is absent when no token is or starts with the pressure
    marker.  For the first token that is or starts with it: when no token
    follows, the field is the substitution reading (temp from the line's
    own TMP field if parsed, pressure 1013.25, altitude from the third
    coordinate of the line's own GPS field if parsed, 0.0 where not); when
    two or more tokens follow, the field holds the floats of the next three
    tokens if all three exist and are numeric, and is absent if not.
    Nothing is stated for exactly one token after the marker. *)
Theorem line_parser_fields (line : string) :
  exists d,
    parse_telem_line line = Ok d /\
    d_tmp d = reading_tmp (tokens line) /\
    d_gps d = reading_gps (tokens line) /\
    d_mpu6050 d = reading_mpu6050 (tokens line) /\
    match first_prefixed "MS5611" (tokens line) with
    | None => d_ms5611 d = None
    | Some i =>
        if trailing (tokens line) i =? 0
        then d_ms5611 d = Some (substitute (d_tmp d) (d_gps d))
        else if trailing (tokens line) i =? 1 then True
             else d_ms5611 d = three_after (tokens line) i
    end.
Proof.
  eexists. split; [apply parse_telem_line_spec|].
  cbn [d_tmp d_gps d_mpu6050 d_ms5611]. repeat split.
  unfold reading_ms5611.
  destruct (first_prefixed "MS5611" (tokens line)) as [i|]; [|reflexivity].
  destruct (trailing (tokens line) i) as [|[|n]]; cbn; auto.
Qed.

(** *** Ingestion *)

(** C2 (as amended).  In a live pass, when the line selected for the
    pressure marker ends with the marker (no token follows it) and
    [parse_telem_line] reads a TMP value and a GPS fix on that same line,
    the pressure reading stored in the snapshot is
    [{temp = that TMP value, pressure = 1013.25, altitude = GPS[2]}]. *)
Theorem marker_only_pressure_line
        (GITHUB_TOKEN : string) (e : env) (w : world) (age : Q)
        (lines : list string) (l : string) (i : nat) (t a b c : F) :
  e_exists e = true ->
  e_file_age e = Ok age ->
  (age <= STALE_TIMEOUT)%Q ->
  e_readlines e = Ok lines ->
  select PressureSensor lines = Some l ->
  first_prefixed "MS5611" (tokens l) = Some i ->
  trailing (tokens l) i = 0 ->
  d_tmp (line_fields l) = Some t ->
  d_gps (line_fields l) = Some (a, b, c) ->
  ms5611 (latest_telemetry (telemetry_reader_pass GITHUB_TOKEN e w)) =
  {| temp := t; pressure := f_std_pressure; altitude := c |}.
Proof.
  intros Hx Ha Hage Hr Hsel Hidx Htr Htmp Hgps.
  apply Qle_bool_iff in Hage.
  rewrite pass_latest, (ingest_live_latest e w age lines Hx Ha Hage Hr).
  cbn [merge_file ms5611]. unfold file_ms5611. rewrite Hsel. cbn [obind].
  rewrite line_fields_spec in Htmp, Hgps |- *. cbn in Htmp, Hgps |- *.
  unfold reading_ms5611. rewrite Hidx, Htr, Htmp, Hgps. reflexivity.
Qed.

(** C5 (as amended).  In every live pass the scan of the lines from the
    last toward the first ends with, for each of the three markers on its
    own, the most recent non-blank line containing the marker's text; lines
    before a suffix of the file that already holds all three are not
    consulted.  From the line selected for a marker the pass merges into
    the snapshot that marker's own field group when [parse_telem_line]
    yields it, and leaves the group unchanged when it does not; other fields
    yielded on that line are not merged. *)
Theorem live_pass_selects_and_merges
        (GITHUB_TOKEN : string) (e : env) (w : world) (age : Q)
        (lines : list string) :
  e_exists e = true ->
  e_file_age e = Ok age ->
  (age <= STALE_TIMEOUT)%Q ->
  e_readlines e = Ok lines ->
  scan_lines (rev lines) ("", "", "") =
    (get_default (select PressureSensor lines) "",
     get_default (select Imu lines) "",
     get_default (select AmbientTemp lines) "") /\
  (forall earlier later,
      lines = earlier ++ later ->
      select PressureSensor later <> None ->
      select Imu later <> None ->
      select AmbientTemp later <> None ->
      scan_lines (rev lines) ("", "", "") =
      scan_lines (rev later) ("", "", "")) /\
  latest_telemetry (telemetry_reader_pass GITHUB_TOKEN e w) =
  {| status := live;
     timestamp := Some (e_utcnow e);
     ms5611 := get_default (file_ms5611 lines) (ms5611 (latest_telemetry w));
     mpu6050 :=
       get_default (file_mpu6050 lines) (mpu6050 (latest_telemetry w));
     tmp := get_default (file_tmp lines) (tmp (latest_telemetry w));
     system := host_metrics e |}.
Proof.
  intros Hx Ha Hage Hr. apply Qle_bool_iff in Hage.
  split; [apply scan_lines_select|]. split.
  - intros earlier later -> H1 H2 H3.
    rewrite !scan_lines_select, !select_app.
    destruct (select PressureSensor later), (select Imu later),
      (select AmbientTemp later); congruence.
  - rewrite pass_latest, (ingest_live_latest e w age lines Hx Ha Hage Hr).
    reflexivity.
Qed.

(** C6 (as amended).  When the log file exists and its age exceeds 120
    seconds, the pass sets status to stale, stamps the timestamp and leaves
    the pressure, IMU and ambient-temp fields as they were; when the age is
    not above the threshold and the file is read without error, status is
    set to live and each sensor field group is again taken from the file. *)
Theorem staleness_transition
        (GITHUB_TOKEN : string) (e : env) (w : world) (age : Q) :
  e_exists e = true ->
  e_file_age e = Ok age ->
  let old := latest_telemetry w in
  let new := latest_telemetry (telemetry_reader_pass GITHUB_TOKEN e w) in
  ((STALE_TIMEOUT < age)%Q ->
   status new = stale /\ timestamp new = Some (e_utcnow e) /\
   ms5611 new = ms5611 old /\ mpu6050 new = mpu6050 old /\
   tmp new = tmp old) /\
  ((age <= STALE_TIMEOUT)%Q ->
   forall lines, e_readlines e = Ok lines ->
   status new = live /\ timestamp new = Some (e_utcnow e) /\
   ms5611 new = get_default (file_ms5611 lines) (ms5611 old) /\
   mpu6050 new = get_default (file_mpu6050 lines) (mpu6050 old) /\
   tmp new = get_default (file_tmp lines) (tmp old)).
Proof.
  intros Hx Ha old new. subst old new. rewrite pass_latest. split.
  - intros Hlt.
    assert (Qle_bool age STALE_TIMEOUT = false) as Hs.
    { destruct (Qle_bool age STALE_TIMEOUT) eqn:E; [|reflexivity].
      apply Qle_bool_iff in E. exfalso. apply (Qlt_not_le _ _ Hlt E). }
    rewrite (ingest_stale e w age Hx Ha Hs). cbn. repeat split.
  - intros Hle lines Hr. apply Qle_bool_iff in Hle.
    rewrite (ingest_live_latest e w age lines Hx Ha Hle Hr).
    cbn. repeat split.
Qed.


(** C10 (as amended).  Line selection tests markers by substring
    containment.  In a live pass, a line that contains a marker's text but
    has no token [parse_telem_line] takes for that marker (no token equal
    to TMP, to MPU6050; no token starting with MS5611) is still selected
    for the marker when no later line contains the text; the marker's field
    group is then not updated in this pass, whatever the earlier lines
    hold. *)
Theorem marker_inside_longer_token
        (GITHUB_TOKEN : string) (e : env) (w : world) (age : Q)
        (before after : list string) (line : string) (m : marker) :
  e_exists e = true ->
  e_file_age e = Ok age ->
  (age <= STALE_TIMEOUT)%Q ->
  e_readlines e = Ok (before ++ line :: after) ->
  str_in (marker_text m) (strip line) = true ->
  (forall l, In l after -> str_in (marker_text m) (strip l) = false) ->
  (forall tok, In tok (tokens line) -> marks m tok = false) ->
  select m (before ++ line :: after) = Some (strip line) /\
  group_unchanged m (latest_telemetry w)
    (latest_telemetry (telemetry_reader_pass GITHUB_TOKEN e w)).
Proof.
  intros Hx Ha Hage Hr Hin Hafter Htok. apply Qle_bool_iff in Hage.
  pose proof (select_most_recent m before after line Hin Hafter) as Hsel.
  split; [exact Hsel|].
  rewrite pass_latest, (ingest_live_latest e w age _ Hx Ha Hage Hr).
  destruct m; cbn [group_unchanged merge_file ms5611 mpu6050 tmp];
    unfold file_ms5611, file_mpu6050, file_tmp; rewrite Hsel; cbn [obind];
    rewrite line_fields_spec, tokens_strip; cbn [d_ms5611 d_mpu6050 d_tmp].
  - unfold reading_ms5611.
    rewrite (first_prefixed_none "MS5611" (tokens line) Htok).
    reflexivity.
  - unfold reading_mpu6050.
    rewrite (first_eq_none "MPU6050" (tokens line)); [reflexivity|].
    intros Hc. specialize (Htok _ Hc). cbn in Htok. discriminate.
  - unfold reading_tmp.
    rewrite (first_eq_none "TMP" (tokens line)); [reflexivity|].
    intros Hc. specialize (Htok _ Hc). cbn in Htok. discriminate.
Qed.

(** *** The relay *)

Lemma window_count (t : Q) (ps : list Q) :
  ForallOrdPairs (fun p q => (q + GIST_PUSH_INTERVAL <= p)%Q) ps ->
  length (filter (in_window t) ps) <= 1.
Proof.
  induction 1 as [|a l Hal Hl IH]; cbn [filter length]; [lia|].
  destruct (in_window t a) eqn:Ea; [|exact IH].
  enough (filter (in_window t) l = []) as -> by (cbn; lia).
  unfold in_window in Ea. apply andb_prop in Ea as [_ Ea].
  clear IH Hl. induction Hal as [|q l Hq Hal IH]; cbn; [reflexivity|].
  rewrite IH. unfold in_window.
  destruct (Qle_bool t q) eqn:Etq; cbn [andb]; [|reflexivity].
  apply Qle_bool_iff in Etq.
  assert (Qle_bool (t + GIST_PUSH_INTERVAL) a = true) as Hc.
  { apply Qle_bool_iff. unfold GIST_PUSH_INTERVAL in *. lra. }
  rewrite Hc in Ea. discriminate.
Qed.

(** While [push_to_gist] returns, requests are at least the push interval
    apart on the reader's clock, and none is later than [last_gist_push]. *)
Lemma pass_keeps_spacing (GITHUB_TOKEN : string) (e : env) (w : world) :
  push_returns e = true ->
  ForallOrdPairs (fun p q => (q + GIST_PUSH_INTERVAL <= p)%Q) (push_times w) ->
  Forall (fun q => (q <= last_gist_push w)%Q) (push_times w) ->
  let w' := telemetry_reader_pass GITHUB_TOKEN e w in
  ForallOrdPairs (fun p q => (q + GIST_PUSH_INTERVAL <= p)%Q) (push_times w')
  /\ Forall (fun q => (q <= last_gist_push w')%Q) (push_times w').
Proof.
  intros Hp Hsp Hle w'. subst w'.
  pose proof (pass_pushes GITHUB_TOKEN e w) as H. cbv zeta in H.
  unfold push_times in *.
  destruct H as [[Hl Hg] | [(Ht & Hq & Hl & [Hg | [t Hg]]) | (_ & Hn & _)]];
    [| | |congruence];
    rewrite Hg, Hl; try (split; assumption);
    apply Qle_bool_iff in Hq; unfold GIST_PUSH_INTERVAL in *.
  - split; [assumption|].
    eapply Forall_impl; [|exact Hle]. cbv beta. intros q Hq'. lra.
  - cbn [map fst]. split.
    + constructor; [|assumption].
      eapply Forall_impl; [|exact Hle]. cbv beta. intros q Hq'. lra.
    + constructor; [lra|].
      eapply Forall_impl; [|exact Hle]. cbv beta. intros q Hq'. lra.
Qed.

Lemma run_keeps_spacing (GITHUB_TOKEN : string) (es : list env) (w : world) :
  forallb push_returns es = true ->
  ForallOrdPairs (fun p q => (q + GIST_PUSH_INTERVAL <= p)%Q) (push_times w) ->
  Forall (fun q => (q <= last_gist_push w)%Q) (push_times w) ->
  ForallOrdPairs (fun p q => (q + GIST_PUSH_INTERVAL <= p)%Q)
    (push_times (telemetry_reader GITHUB_TOKEN es w)).
Proof.
  revert w. induction es as [|e es IH]; intros w Hp Hsp Hle; cbn in *;
    [assumption|].
  apply andb_prop in Hp as [He Hes].
  destruct (pass_keeps_spacing GITHUB_TOKEN e w He Hsp Hle) as [H1 H2].
  now apply IH.
Qed.

Lemma run_without_token (es : list env) (w : world) :
  gist_calls w = [] -> gist_calls (telemetry_reader "" es w) = [].
Proof.
  revert w. induction es as [|e es IH]; intros w Hw; cbn; [assumption|].
  apply IH. pose proof (pass_pushes "" e w) as H. cbv zeta in H.
  destruct H as [[_ Hg] | [(Ht & _) | (Ht & _)]];
    [congruence | discriminate | discriminate].
Qed.

(** X21.  As long as every call of [push_to_gist] returns, no window of
    five seconds [[t, t + 5)] of the reader's clock holds more than one
    request to the relay, whatever the passes. *)
Theorem rate_limit_while_pushes_return
        (GITHUB_TOKEN : string) (es : list env) (t : Q) :
  forallb push_returns es = true ->
  pushes_in_window t (telemetry_reader GITHUB_TOKEN es initial_world) <= 1.
Proof.
  intros Hp.
  apply window_count, run_keeps_spacing; [exact Hp | constructor
                                          | constructor].
Qed.

(** X22.  Without a token the reader makes no request to the relay,
    whatever the passes and however they end. *)
Theorem no_token_no_request (es : list env) :
  gist_calls (telemetry_reader "" es initial_world) = [].
Proof.
  now apply run_without_token.
Qed.

(** *** The values the shared dict takes during a pass *)

Lemma observe_in (sched : list event) (pending : list telemetry)
      (cur obs : telemetry) :
  In obs (observe sched pending cur) -> obs = cur \/ In obs pending.
Proof.
  revert pending cur.
  induction sched as [|ev s IH]; intros pending cur; cbn; [tauto|].
  destruct ev.
  - destruct pending as [|t p]; intros H; apply IH in H; cbn;
      intuition auto.
  - intros [<- | H]; [now left | now apply IH].
Qed.

Ltac groupwise :=
  unfold groupwise_old_or_new; cbn;
  repeat match goal with
         | H : _ \/ _ |- _ => destruct H as [H | H]
         | H : False |- _ => destruct H
         | H : _ = ?t |- _ => subst t
         end;
  cbn; auto 6.

(** Every value the shared dict takes during a pass shows each field group
    as before the pass or as after it. *)
Lemma pass_states_groupwise (GITHUB_TOKEN : string) (e : env) (w : world)
      (t : telemetry) :
  In t (pass_states GITHUB_TOKEN e w) ->
  groupwise_old_or_new (latest_telemetry w)
    (latest_telemetry (telemetry_reader_pass GITHUB_TOKEN e w)) t.
Proof.
  unfold pass_states. rewrite pass_trace, pass_latest. intros H.
  apply in_rev in H. revert H. ingest_split e w; intros H.
  - rewrite (ingest_live e (clear_trace w) age lines Hx Ha Hs Hr) in H.
    destruct (file_tmp lines), (file_mpu6050 lines), (file_ms5611 lines);
      cbn in H; groupwise.
  - rewrite (ingest_read_fails e (clear_trace w) age x Hx Ha Hs Hr) in H.
    cbn in H; groupwise.
  - rewrite (ingest_stale e (clear_trace w) age Hx Ha Hs) in H.
    cbn in H; groupwise.
  - rewrite (ingest_mtime_fails e (clear_trace w) x Hx Ha) in H.
    cbn in H; groupwise.
  - rewrite (ingest_no_file e (clear_trace w) Hx) in H.
    cbn in H; groupwise.
Qed.

(** *** Status *)

Lemma pass_status (GITHUB_TOKEN : string) (e : env) (w : world) :
  let s := latest_telemetry w in
  let s' := latest_telemetry (telemetry_reader_pass GITHUB_TOKEN e w) in
  if ingested e w
  then (status s' = live \/ status s' = stale \/ status s' = no_file) /\
       timestamp s' = Some (e_utcnow e)
  else status s' = status s /\ timestamp s' = timestamp s.
Proof.
  cbv zeta. rewrite pass_latest. unfold ingested.
  ingest_split e w; cbn [fst snd]; try (cbn; auto; fail).
  destruct (file_tmp lines), (file_mpu6050 lines), (file_ms5611 lines);
    cbn; auto.
Qed.

Lemma pass_keeps_status_set (GITHUB_TOKEN : string) (e : env) (w : world) :
  status (latest_telemetry w) <> offline ->
  status (latest_telemetry (telemetry_reader_pass GITHUB_TOKEN e w))
  <> offline.
Proof.
  intros H. pose proof (pass_status GITHUB_TOKEN e w) as P. cbv zeta in P.
  destruct (ingested e w).
  - destruct P as [[-> | [-> | ->]] _]; discriminate.
  - destruct P as [-> _]. exact H.
Qed.

Lemma run_keeps_status_set (GITHUB_TOKEN : string) (es : list env)
      (w : world) :
  status (latest_telemetry w) <> offline ->
  status (latest_telemetry (telemetry_reader GITHUB_TOKEN es w)) <> offline.
Proof.
  revert w. induction es as [|e es IH]; intros w H; cbn; [assumption|].
  now apply IH, pass_keeps_status_set.
Qed.

Lemma run_app (GITHUB_TOKEN : string) (es1 es2 : list env) (w : world) :
  telemetry_reader GITHUB_TOKEN (es1 ++ es2) w =
  telemetry_reader GITHUB_TOKEN es2 (telemetry_reader GITHUB_TOKEN es1 w).
Proof.
  revert w. induction es1 as [|e es1 IH]; intros w; cbn; [reflexivity|].
  apply IH.
Qed.

(** C9 (as amended).  Once the ingestion half of a pass has run to its
    end, the status of the snapshot is live, stale or no_file after every
    later pass: offline does not come back.  Every pass whose ingestion
    half runs to its end rewrites status and timestamp together; a pass
    that a file-access exception cuts short rewrites neither; and every
    value the shared dict takes during a pass has status and timestamp both
    as before the pass or both as after it. *)
Theorem status_after_first_completed_pass
        (GITHUB_TOKEN : string) (es1 es2 : list env) (e : env) :
  ingested e (telemetry_reader GITHUB_TOKEN es1 initial_world) = true ->
  let s := latest_telemetry
             (telemetry_reader GITHUB_TOKEN (es1 ++ e :: es2) initial_world) in
  (status s = live \/ status s = stale \/ status s = no_file) /\
  status s <> offline /\
  (forall e' w',
      let s0 := latest_telemetry w' in
      let s1 := latest_telemetry (telemetry_reader_pass GITHUB_TOKEN e' w') in
      (if ingested e' w'
       then (status s1 = live \/ status s1 = stale \/ status s1 = no_file) /\
            timestamp s1 = Some (e_utcnow e')
       else status s1 = status s0 /\ timestamp s1 = timestamp s0) /\
      (forall t, In t (pass_states GITHUB_TOKEN e' w') ->
                 (status t = status s0 /\ timestamp t = timestamp s0) \/
                 (status t = status s1 /\ timestamp t = timestamp s1))).
Proof.
  intros Hc s.
  assert (status s <> offline) as Hs.
  { subst s. rewrite run_app. cbn [telemetry_reader].
    apply run_keeps_status_set.
    pose proof (pass_status GITHUB_TOKEN e
                  (telemetry_reader GITHUB_TOKEN es1 initial_world)) as P.
    cbv zeta in P. rewrite Hc in P.
    destruct P as [[-> | [-> | ->]] _]; discriminate. }
  split; [|split; [exact Hs|]].
  - destruct (status s); auto. now elim Hs.
  - intros e' w'. split; [apply pass_status|].
    intros t Ht. now apply pass_states_groupwise in Ht as (_ & Ht & _).
Qed.

(** *** Readers *)

(** C1 (as amended).  For every interleaving of one pass of the reader with
    any number of handler reads, each read returns the snapshot as it stood
    before the pass or right after one of the pass's lock sections (host
    metrics; status with timestamp; pressure; IMU; ambient temp).  So each
    field group is seen whole, either as before the pass or as after it,
    and status and timestamp are always seen from the same side; different
    groups may be seen from different sides. *)
Theorem readers_see_whole_lock_sections
        (GITHUB_TOKEN : string) (e : env) (w : world) (sched : list event)
        (obs : telemetry) :
  In obs (observations GITHUB_TOKEN e w sched) ->
  (obs = latest_telemetry w \/ In obs (pass_states GITHUB_TOKEN e w)) /\
  groupwise_old_or_new (latest_telemetry w)
    (latest_telemetry (telemetry_reader_pass GITHUB_TOKEN e w)) obs.
Proof.
  intros H. apply observe_in in H. split; [exact H|].
  destruct H as [-> | H].
  - unfold groupwise_old_or_new. auto 6.
  - now apply pass_states_groupwise.
Qed.

(** ** Further properties of the module *)

(** *** The reader, pass by pass *)

(** A pass whose ingestion half ran to its end completes when
    [write_local_json] and [push_to_gist] return. *)
Lemma completed_when_calls_return (GITHUB_TOKEN : string) (e : env)
      (w : world) :
  ingested e w = true -> write_returns e = true -> push_returns e = true ->
  completed GITHUB_TOKEN e w = true.
Proof.
  intros Hi Hw Hp. rewrite completed_spec, Hi, publish_spec, Hw.
  cbn [andb negb]. unfold push_returns in Hp.
  destruct (truthy GITHUB_TOKEN && _);
    [destruct (truthy (strip GITHUB_TOKEN))|]; cbn [snd]; try reflexivity.
  destruct (e_push e); [reflexivity | discriminate Hp].
Qed.

(** X1.  A pass that finds no log file gets through its ingestion half
    (and completes when [write_local_json] and [push_to_gist] return),
    sets status to no_file with the timestamp, rewrites the host metrics
    and leaves the pressure, IMU and ambient-temp fields as they were. *)
Theorem missing_file_pass (GITHUB_TOKEN : string) (e : env) (w : world) :
  e_exists e = false ->
  let old := latest_telemetry w in
  let new := latest_telemetry (telemetry_reader_pass GITHUB_TOKEN e w) in
  ingested e w = true /\
  (write_returns e = true -> push_returns e = true ->
   completed GITHUB_TOKEN e w = true) /\
  status new = no_file /\ timestamp new = Some (e_utcnow e) /\
  system new = host_metrics e /\
  ms5611 new = ms5611 old /\ mpu6050 new = mpu6050 old /\ tmp new = tmp old.
Proof.
  intros Hx old new. subst old new.
  assert (ingested e w = true) as Hi.
  { unfold ingested. now rewrite (ingest_no_file e w Hx). }
  split; [exact Hi|].
  split; [now apply completed_when_calls_return|].
  rewrite pass_latest, (ingest_no_file e w Hx).
  cbn. repeat split.
Qed.

Lemma aborted_pass_frame (GITHUB_TOKEN : string) (e : env) (w : world) :
  ingested e w = false ->
  let w' := telemetry_reader_pass GITHUB_TOKEN e w in
  latest_telemetry w' = with_system (host_metrics e) (latest_telemetry w) /\
  local_json w' = local_json w /\
  gist_calls w' = gist_calls w /\
  last_gist_push w' = last_gist_push w.
Proof.
  intros Hc w'. subst w'. rewrite pass_world, Hc. revert Hc. unfold ingested.
  ingest_split e w; cbn [fst snd]; intros Hc; try discriminate Hc;
    cbn; repeat split.
Qed.

(** X2.  A pass cut short by an exception in its ingestion half
    ([getmtime] or [open]/[readlines] raising) has still rewritten the host
    metrics; everything else is as before the pass: status, timestamp,
    sensor fields, the local mirror, the requests sent and
    [last_gist_push]. *)
Theorem aborted_pass (GITHUB_TOKEN : string) (e : env) (w : world) :
  ingested e w = false ->
  let w' := telemetry_reader_pass GITHUB_TOKEN e w in
  latest_telemetry w' = with_system (host_metrics e) (latest_telemetry w) /\
  local_json w' = local_json w /\
  gist_calls w' = gist_calls w /\
  last_gist_push w' = last_gist_push w.
Proof.
  apply aborted_pass_frame.
Qed.

Lemma ingested_pass_mirror (GITHUB_TOKEN : string) (e : env) (w : world) :
  ingested e w = true ->
  let w' := telemetry_reader_pass GITHUB_TOKEN e w in
  local_json w' =
    match e_json_write e with
    | Written => Some (latest_telemetry w')
    | Not_opened => local_json w
    | Cut_short => None
    end /\
  (gist_calls w' = gist_calls w \/
   gist_calls w' = (e_now e, latest_telemetry w') :: gist_calls w).
Proof.
  intros Hc w'. subst w'. rewrite pass_latest, pass_world, Hc.
  rewrite publish_spec. destruct (ingest_frame e w) as [_ Hg].
  assert (local_json (fst (ingest e w)) = local_json w) as Hj.
  { clear. ingest_split e w; cbn [fst]; try reflexivity.
    destruct (file_tmp lines), (file_mpu6050 lines), (file_ms5611 lines);
      reflexivity. }
  unfold mirror_after. rewrite Hj.
  destruct (negb (write_returns e));
    [|destruct (truthy GITHUB_TOKEN && _);
      [destruct (truthy (strip GITHUB_TOKEN))|]];
    cbn [fst local_json gist_calls]; rewrite ?Hg; auto.
Qed.

(** X3.  After a pass whose ingestion half ran to its end, the local
    mirror [telemetry.json] holds exactly the snapshot the pass left in
    memory if the write succeeded, is as it was if the file could not be
    opened, and holds no snapshot if the write broke off; a request sent by
    the pass carries that same snapshot, stamped with the pass's clock
    reading. *)
Theorem completed_pass_publishes_its_snapshot
        (GITHUB_TOKEN : string) (e : env) (w : world) :
  ingested e w = true ->
  let w' := telemetry_reader_pass GITHUB_TOKEN e w in
  local_json w' =
    match e_json_write e with
    | Written => Some (latest_telemetry w')
    | Not_opened => local_json w
    | Cut_short => None
    end /\
  (gist_calls w' = gist_calls w \/
   gist_calls w' = (e_now e, latest_telemetry w') :: gist_calls w).
Proof.
  apply ingested_pass_mirror.
Qed.

Lemma pass_new_request (GITHUB_TOKEN : string) (e : env) (w : world) :
  let w' := telemetry_reader_pass GITHUB_TOKEN e w in
  gist_calls w' = gist_calls w \/
  (ingested e w = true /\
   gist_calls w' = (e_now e, latest_telemetry w') :: gist_calls w).
Proof.
  cbv zeta. destruct (ingested e w) eqn:Hc.
  - destruct (ingested_pass_mirror GITHUB_TOKEN e w Hc) as [_ [H | H]]; auto.
  - left. now destruct (aborted_pass_frame GITHUB_TOKEN e w Hc)
      as (_ & _ & H & _).
Qed.

Lemma run_requests_not_offline (GITHUB_TOKEN : string) (es : list env)
      (w : world) :
  Forall (fun c => status (snd c) <> offline) (gist_calls w) ->
  Forall (fun c => status (snd c) <> offline)
    (gist_calls (telemetry_reader GITHUB_TOKEN es w)).
Proof.
  revert w. induction es as [|e es IH]; intros w H; cbn; [assumption|].
  apply IH.
  pose proof (pass_new_request GITHUB_TOKEN e w) as P. cbv zeta in P.
  destruct P as [-> | [Hc ->]]; [assumption|].
  constructor; [|assumption]. cbn [snd].
  pose proof (pass_status GITHUB_TOKEN e w) as S. cbv zeta in S.
  rewrite Hc in S. destruct S as [[-> | [-> | ->]] _]; discriminate.
Qed.

(** X4.  Whatever the passes, every snapshot the reader has sent to the
    relay has status live, stale or no_file: the initial offline snapshot
    is never published. *)
Theorem relay_never_sends_offline (GITHUB_TOKEN : string) (es : list env) :
  Forall (fun c => status (snd c) <> offline)
    (gist_calls (telemetry_reader GITHUB_TOKEN es initial_world)).
Proof.
  apply run_requests_not_offline. constructor.
Qed.

Lemma quiet_pass_keeps_sensors (GITHUB_TOKEN : string) (e : env) (w : world) :
  reads_file e = false ->
  let old := latest_telemetry w in
  let new := latest_telemetry (telemetry_reader_pass GITHUB_TOKEN e w) in
  ms5611 new = ms5611 old /\ mpu6050 new = mpu6050 old /\ tmp new = tmp old.
Proof.
  intros Hq. cbv zeta. rewrite pass_latest. revert Hq. unfold reads_file.
  ingest_split e w; cbn [fst andb]; intros Hq; try discriminate Hq;
    cbn; repeat split.
Qed.

(** X5.  Over any run of passes none of which reads the log file (file
    missing, stale, or an I/O error), the pressure, IMU and ambient-temp
    fields keep their values: last-known readings are never reset. *)
Theorem sensors_survive_quiet_passes
        (GITHUB_TOKEN : string) (es : list env) (w : world) :
  forallb (fun e => negb (reads_file e)) es = true ->
  let old := latest_telemetry w in
  let new := latest_telemetry (telemetry_reader GITHUB_TOKEN es w) in
  ms5611 new = ms5611 old /\ mpu6050 new = mpu6050 old /\ tmp new = tmp old.
Proof.
  cbv zeta. revert w. induction es as [|e es IH]; intros w H; cbn in *.
  - repeat split.
  - apply andb_prop in H as [He Hes]. apply negb_true_iff in He.
    destruct (IH (telemetry_reader_pass GITHUB_TOKEN e w) Hes)
      as (H1 & H2 & H3).
    destruct (quiet_pass_keeps_sensors GITHUB_TOKEN e w He) as (K1 & K2 & K3).
    cbv zeta in *. rewrite H1, H2, H3. auto.
Qed.

Lemma find_all_false {A} (f : A -> bool) (l : list A) :
  (forall x, In x l -> f x = false) -> find f l = None.
Proof.
  induction l as [|a l IH]; intros H; cbn; [reflexivity|].
  rewrite (H a (or_introl eq_refl)). apply IH. intros x Hx. apply H. now right.
Qed.

Lemma select_none (m : marker) (lines : list string) :
  (forall l, In l lines -> str_in (marker_text m) (strip l) = false) ->
  select m lines = None.
Proof.
  intros H. unfold select. apply find_all_false. intros x Hx.
  apply filter_In in Hx as [Hx _].
  apply in_map_iff in Hx as (l & <- & Hl). apply H. now apply in_rev.
Qed.

(** X6.  A live pass over a file in which no line contains the text of any
    of the three markers (an empty file, or lines with GPS fixes only)
    sets status to live with the timestamp and changes no sensor field. *)
Theorem live_pass_without_markers
        (GITHUB_TOKEN : string) (e : env) (w : world) (age : Q)
        (lines : list string) :
  e_exists e = true ->
  e_file_age e = Ok age ->
  (age <= STALE_TIMEOUT)%Q ->
  e_readlines e = Ok lines ->
  no_marker_text lines ->
  latest_telemetry (telemetry_reader_pass GITHUB_TOKEN e w) =
  with_timestamp (Some (e_utcnow e))
    (with_status live (with_system (host_metrics e) (latest_telemetry w))).
Proof.
  intros Hx Ha Hage Hr Hno. apply Qle_bool_iff in Hage.
  rewrite pass_latest, (ingest_live_latest e w age lines Hx Ha Hage Hr).
  unfold merge_file, file_ms5611, file_mpu6050, file_tmp.
  rewrite !select_none by (intros l Hl; now apply Hno).
  reflexivity.
Qed.

(** *** The token and the relay *)

Lemma strip_empty : strip "" = "".
Proof. reflexivity. Qed.

Lemma load_token_stripped (te : token_env) :
  strip (_load_token te) = _load_token te.
Proof.
  unfold _load_token. cbv zeta.
  destruct (truthy (strip _)); [apply strip_idem|].
  cbn [load_token_from].
  repeat match goal with
         | |- context [if ?b then _ else _] => destruct b
         | |- context [match ?r with Ok _ => _ | Raise _ => _ end] =>
             destruct r
         end; solve [apply strip_idem | reflexivity].
Qed.

(** X7.  The token [_load_token] returns carries no surrounding
    whitespace, so [push_to_gist] called with it sends the request exactly
    when the token is non-empty: its second emptiness test never fires. *)
Theorem loaded_token_is_stripped (te : token_env) (outcome : result unit)
        (now : Q) (data : telemetry) (w : world) :
  strip (_load_token te) = _load_token te /\
  push_to_gist (_load_token te) outcome now data w =
  if truthy (_load_token te) then urlopen_patch outcome now data w
  else (w, Ok tt).
Proof.
  split; [apply load_token_stripped|].
  unfold push_to_gist. rewrite load_token_stripped.
  destruct (truthy (_load_token te)); reflexivity.
Qed.

Lemma pass_last_push (te : token_env) (e : env) (w : world) :
  push_returns e = true ->
  last_gist_push w = hd 0%Q (push_times w) ->
  let w' := telemetry_reader_pass (_load_token te) e w in
  last_gist_push w' = hd 0%Q (push_times w').
Proof.
  intros Hp H w'. subst w'. rewrite pass_world.
  destruct (ingested e w) eqn:Hc.
  - rewrite publish_spec, Hp.
    rewrite load_token_stripped. destruct (ingest_frame e w) as [Hl Hg].
    unfold push_times in *.
    destruct (negb (write_returns e));
      [cbn [fst last_gist_push gist_calls]; now rewrite Hl, Hg|].
    destruct (truthy (_load_token te)); cbn [andb fst];
      [destruct (Qle_bool _ _)|];
      cbn [fst last_gist_push gist_calls map hd]; rewrite ?Hl, ?Hg; auto.
  - destruct (aborted_pass_frame (_load_token te) e w Hc) as (_ & _ & Hg & Hl).
    cbv zeta in *. rewrite pass_world, Hc in Hg, Hl.
    unfold push_times. now rewrite Hg, Hl.
Qed.

(** X8.  With the token as [_load_token] returns it, and as long as every
    call of [push_to_gist] returns, [last_gist_push] is after every pass
    the clock reading of the most recent request sent (0 while none was
    sent): the rate limiter never counts a push that was not made. *)
Theorem last_push_is_latest_request (te : token_env) (es : list env) :
  forallb push_returns es = true ->
  let w := telemetry_reader (_load_token te) es initial_world in
  last_gist_push w = hd 0%Q (push_times w).
Proof.
  intros Hp. cbv zeta.
  assert (forall w, last_gist_push w = hd 0%Q (push_times w) ->
                    last_gist_push (telemetry_reader (_load_token te) es w) =
                    hd 0%Q (push_times (telemetry_reader (_load_token te) es w)))
    as H.
  { induction es as [|e es IH]; intros w Hw; cbn in *; [assumption|].
    apply andb_prop in Hp as [He Hes].
    apply (IH Hes). now apply pass_last_push. }
  apply H. reflexivity.
Qed.

(** X9.  With a non-empty loaded token, a pass that completes at least
    five seconds (on its clock) after [last_gist_push] sends the snapshot
    it has just built and moves [last_gist_push] to its clock reading. *)
Theorem due_push_is_made (te : token_env) (e : env) (w : world) :
  truthy (_load_token te) = true ->
  completed (_load_token te) e w = true ->
  (GIST_PUSH_INTERVAL <= e_now e - last_gist_push w)%Q ->
  let w' := telemetry_reader_pass (_load_token te) e w in
  gist_calls w' = (e_now e, latest_telemetry w') :: gist_calls w /\
  last_gist_push w' = e_now e.
Proof.
  intros Ht Hc Hq w'. subst w'. apply Qle_bool_iff in Hq.
  pose proof (completed_ingested _ _ _ Hc) as Hi.
  rewrite completed_spec, Hi in Hc. cbn [andb] in Hc.
  rewrite pass_latest, pass_world, Hi. revert Hc.
  rewrite publish_spec, load_token_stripped, Ht.
  destruct (ingest_frame e w) as [Hl Hg].
  rewrite Hl, Hq. cbn [andb fst snd gist_calls last_gist_push].
  unfold write_returns, push_returns.
  destruct (e_json_write e);
    [|destruct (e_json_report e); [|discriminate]..]; cbn [negb];
    (destruct (e_push e); [|discriminate]); intros _; now rewrite Hg.
Qed.

(** *** [get_gpu_temp] *)

Lemma replace_go_free (old' : string) (c0 : ascii) (x y : string) :
  has_char c0 x = false ->
  replace_go (String c0 old') "" 0 (x ++ y)%string =
  (x ++ replace_go (String c0 old') "" 0 y)%string.
Proof.
  induction x as [|c x IH]; cbn [has_char]; intros H; [reflexivity|].
  apply orb_false_elim in H as [Hc Hx].
  cbn [append replace_go String.prefix].
  destruct (ascii_dec c0 c) as [->|_].
  - rewrite Ascii.eqb_refl in Hc. discriminate.
  - now rewrite IH.
Qed.

Lemma append_empty (x : string) : (x ++ "")%string = x.
Proof.
  induction x as [|c x IH]; cbn; [reflexivity | now rewrite IH].
Qed.

Lemma prefix_append (a s : string) : String.prefix a (a ++ s)%string = true.
Proof.
  induction a as [|c a IH]; cbn; [now destruct s|].
  destruct (ascii_dec c c) as [_|n]; [exact IH | now elim n].
Qed.

Lemma replace_go_skip (old new a s : string) :
  replace_go old new (String.length a) (a ++ s)%string =
  replace_go old new 0 s.
Proof.
  induction a as [|c a IH]; cbn; [|exact IH].
  destruct s; reflexivity.
Qed.

(** An occurrence at the front is replaced, and the scan goes on after
    it. *)
Lemma replace_go_match (c : ascii) (old' new s : string) :
  replace_go (String c old') new 0 (String c old' ++ s)%string =
  (new ++ replace_go (String c old') new 0 s)%string.
Proof.
  cbn [append replace_go].
  change (String c (old' ++ s)%string) with (String c old' ++ s)%string.
  rewrite prefix_append. cbn [String.length Nat.sub].
  rewrite Nat.sub_0_r. now rewrite replace_go_skip.
Qed.

(** X10.  On a line of the form [temp=<x>'C] with its newline, where [x]
    holds neither [t] nor an apostrophe, [get_gpu_temp] returns [float(x)],
    and 0.0 when [x] is not a number. *)
Theorem gpu_temp_of_vcgencmd_line (x : string) :
  has_char "t"%char x = false ->
  has_char "'"%char x = false ->
  get_gpu_temp (Ok ("temp=" ++ x ++ degrees_suffix)%string) =
  match float x with
  | Some v => v
  | None => f_zero
  end.
Proof.
  intros Ht Hq. unfold get_gpu_temp. cbn [rbind].
  assert (str_replace "temp=" "" ("temp=" ++ x ++ degrees_suffix)%string
          = (x ++ degrees_suffix)%string) as ->.
  { unfold str_replace. cbn [truthy].
    rewrite (replace_go_match "t" "emp=" "" (x ++ degrees_suffix)).
    cbn [append]. now rewrite (replace_go_free "emp=" "t" x degrees_suffix Ht). }
  assert (str_replace degrees_suffix "" (x ++ degrees_suffix)%string = x)
    as ->.
  { unfold str_replace, degrees_suffix. cbn [truthy].
    rewrite (replace_go_free _ "'" x _ Hq).
    change (replace_go _ "" 0 _) with "". apply append_empty. }
  unfold float_of. now destruct (float x).
Qed.

(** *** User accounts *)

Lemma load_users_saved (l : list user) :
  l <> [] -> load_users (Some l) = l.
Proof.
  destruct l; [congruence | reflexivity].
Qed.

Lemma load_users_nonempty (file : option (list user)) :
  load_users file <> [].
Proof.
  destruct file as [[|u l]|]; discriminate.
Qed.

Lemma str_or_some (s : string) : str_or (Some s) "" = s.
Proof.
  now destruct s.
Qed.

(** What a request that saves has passed. *)
Lemma do_POST_saved (raw_path : string) (b : body)
      (file : option (list user)) (today : string) (r : reply)
      (l' : list user) :
  do_POST raw_path b file today = (r, Some l') ->
  r = Done /\
  is_admin (acting_admin b (load_users file)) = true /\
  ((before_query raw_path = "/api/users" /\
    truthy (req_uid b) = true /\
    3 <= String.length (req_uid b) /\
    6 <= String.length (req_pw b) /\
    existsb (same_name (req_uid b)) (load_users file) = false /\
    l' = load_users file ++ [new_user b today]) \/
   (before_query raw_path = "/api/users/delete" /\
    lower (req_uid b) <> "flyboysam" /\
    lower (req_uid b) <> lower (req_admin_id b) /\
    l' = filter (fun u => negb (same_name (req_uid b) u))
           (load_users file))).
Proof.
  unfold do_POST. cbv zeta.
  fold (req_uid b) (req_pw b) (req_role b) (req_admin_id b) (req_admin_pw b).
  fold (acting_admin b (load_users file)). fold (new_user b today).
  destruct (String.eqb_spec (before_query raw_path) "/api/auth") as [_|_].
  { destruct (find _ _); discriminate. }
  destruct (String.eqb_spec (before_query raw_path) "/api/users") as [Hp|_].
  { destruct (is_admin _) eqn:Ha; cbn [negb]; [|discriminate].
    destruct (truthy (req_uid b)) eqn:Hu; cbn [negb orb]; [|discriminate].
    destruct (Nat.ltb_spec (String.length (req_uid b)) 3); [discriminate|].
    destruct (Nat.ltb_spec (String.length (req_pw b)) 6); [discriminate|].
    destruct (existsb _ _) eqn:He; [discriminate|].
    intros [= <- <-]. repeat split. left. repeat split; auto. }
  destruct (String.eqb_spec (before_query raw_path) "/api/users/delete")
    as [Hp|_]; [|discriminate].
  destruct (is_admin _) eqn:Ha; cbn [negb]; [|discriminate].
  destruct (String.eqb_spec (lower (req_uid b)) "flyboysam"); [discriminate|].
  destruct (String.eqb_spec (lower (req_uid b)) (lower (req_admin_id b)));
    [discriminate|].
  intros [= <- <-]. repeat split. right. repeat split; auto.
Qed.

Lemma acting_admin_found (b : body) (users : list user) :
  is_admin (acting_admin b users) = true ->
  exists a, acting_admin b users = Some a /\ In a users /\
            lower (u_id a) = lower (req_admin_id b) /\
            u_pw a = Some (req_admin_pw b) /\ u_role a = "admin".
Proof.
  unfold is_admin. destruct (acting_admin b users) as [a|] eqn:E;
    [|discriminate].
  intros Hr. apply String.eqb_eq in Hr. exists a. split; [reflexivity|].
  apply find_some in E as [Hin Hm]. unfold credentials_match in Hm.
  apply andb_prop in Hm as [Hn Hp]. apply String.eqb_eq in Hn.
  destruct (u_pw a) as [p|]; [|discriminate].
  apply String.eqb_eq in Hp. subst p. auto.
Qed.

(** X11.  [do_POST] hands a list to [save_users] only when it answers 200
    and the request carries the id (compared in lower case) and the exact
    password of a stored user whose role is admin; every refused request,
    every login and every unknown path leaves [users.json] alone. *)
Theorem saving_needs_admin_credentials
        (raw_path : string) (b : body) (file : option (list user))
        (today : string) (r : reply) (l' : list user) :
  do_POST raw_path b file today = (r, Some l') ->
  r = Done /\
  exists a, In a (load_users file) /\
            lower (u_id a) = lower (req_admin_id b) /\
            u_pw a = Some (req_admin_pw b) /\ u_role a = "admin".
Proof.
  intros H. apply do_POST_saved in H as (Hr & Ha & _).
  split; [exact Hr|].
  destruct (acting_admin_found b _ Ha) as (a & _ & H1 & H2 & H3 & H4).
  eauto.
Qed.

Lemma saved_keeps_others (raw_path : string) (b : body)
      (file : option (list user)) (today : string) (r : reply)
      (l' : list user) (u : user) :
  do_POST raw_path b file today = (r, Some l') ->
  In u (load_users file) ->
  lower (u_id u) <> lower (req_uid b) \/
  before_query raw_path = "/api/users" ->
  In u l'.
Proof.
  intros H Hin Hk. apply do_POST_saved in H as (_ & _ & [Hadd | Hdel]).
  - destruct Hadd as (_ & _ & _ & _ & _ & ->). apply in_or_app. now left.
  - destruct Hdel as (Hp & _ & _ & ->). apply filter_In. split; [exact Hin|].
    destruct Hk as [Hk | Hk]; [|rewrite Hp in Hk; discriminate].
    unfold same_name. now destruct (String.eqb_spec (lower (u_id u))
                                      (lower (req_uid b))).
Qed.

(** X12.  No request removes the protected account: whatever list
    [do_POST] saves still holds every stored user whose id is [flyboysam]
    in any letter case. *)
Theorem protected_user_is_never_removed
        (raw_path : string) (b : body) (file : option (list user))
        (today : string) (r : reply) (l' : list user) (u : user) :
  do_POST raw_path b file today = (r, Some l') ->
  In u (load_users file) ->
  lower (u_id u) = "flyboysam" ->
  In u l'.
Proof.
  intros H Hin Hu. pose proof H as H0.
  apply do_POST_saved in H0 as (_ & _ & [Hadd | Hdel]).
  - eapply saved_keeps_others; eauto. right. tauto.
  - eapply saved_keeps_others; eauto. left. rewrite Hu.
    destruct Hdel as (_ & Hn & _). congruence.
Qed.

Lemma acting_admin_stays (raw_path : string) (b : body)
      (file : option (list user)) (today : string) (r : reply)
      (l' : list user) :
  do_POST raw_path b file today = (r, Some l') ->
  exists a, In a l' /\ lower (u_id a) = lower (req_admin_id b) /\
            u_pw a = Some (req_admin_pw b) /\ u_role a = "admin".
Proof.
  intros H. pose proof H as H0.
  apply do_POST_saved in H0 as (_ & Ha & Hcase).
  destruct (acting_admin_found b _ Ha) as (a & _ & H1 & H2 & H3 & H4).
  exists a. split; [|auto].
  eapply saved_keeps_others; eauto.
  destruct Hcase as [(Hp & _) | (_ & _ & Hn & _)]; [now right|].
  left. congruence.
Qed.

(** X13.  After any request that saves, the admin who made it is still in
    the saved list, so the list is not empty: if [save_users] wrote the
    file, the next [load_users] returns exactly that list, not the built-in
    defaults; if the write broke off after truncating the file, the next
    [load_users] returns the defaults. *)
Theorem saved_list_is_loaded_back
        (raw_path : string) (b : body) (file : option (list user))
        (today : string) (r : reply) (l' : list user) :
  do_POST raw_path b file today = (r, Some l') ->
  load_users (file_after file (Some l') Written) = l' /\
  load_users (file_after file (Some l') Cut_short) = DEF_USERS /\
  exists a, In a l' /\ lower (u_id a) = lower (req_admin_id b) /\
            u_pw a = Some (req_admin_pw b) /\ u_role a = "admin".
Proof.
  intros H. destruct (acting_admin_stays _ _ _ _ _ _ H) as (a & Hin & Ha).
  split; [|split; [reflexivity | eauto]].
  cbn [file_after]. apply load_users_saved.
  intros ->. exact Hin.
Qed.

Lemma NoDup_names_filter (p : user -> bool) (l : list user) :
  NoDup (names l) -> NoDup (names (filter p l)).
Proof.
  unfold names. induction l as [|u l IH]; cbn; [trivial|].
  intros H. inversion H as [|x xs Hnot Hnd]; subst.
  destruct (p u); cbn; [|now apply IH].
  constructor; [|now apply IH].
  intros Hc. apply Hnot. apply in_map_iff in Hc as (v & Hv & Hin).
  apply filter_In in Hin as [Hin _]. apply in_map_iff. eauto.
Qed.

Lemma same_name_absent (uid : string) (l : list user) :
  existsb (same_name uid) l = false -> ~ In (lower uid) (names l).
Proof.
  intros He Hin. unfold names in Hin.
  apply in_map_iff in Hin as (u & Hu & Hin).
  assert (existsb (same_name uid) l = true) as Ht.
  { apply existsb_exists. exists u. split; [exact Hin|].
    unfold same_name. rewrite Hu. apply String.eqb_refl. }
  congruence.
Qed.

(** X14.  If no two stored users have the same id up to letter case, the
    same holds of whatever list [do_POST] saves: an added user never
    duplicates a name, a deletion never creates a duplicate. *)
Theorem names_stay_distinct
        (raw_path : string) (b : body) (file : option (list user))
        (today : string) (r : reply) (l' : list user) :
  do_POST raw_path b file today = (r, Some l') ->
  NoDup (names (load_users file)) ->
  NoDup (names l').
Proof.
  intros H Hnd. apply do_POST_saved in H as (_ & _ & [Hadd | Hdel]).
  - destruct Hadd as (_ & _ & _ & _ & He & ->).
    unfold names. rewrite map_app. cbn [map new_user u_id].
    apply NoDup_app; [exact Hnd | repeat constructor; intros [] |].
    intros x Hx [<- | []]. revert Hx. now apply same_name_absent.
  - destruct Hdel as (_ & _ & _ & ->). now apply NoDup_names_filter.
Qed.

Lemma auth_reply (id pw : string) (file : option (list user))
      (today : string) :
  do_POST "/api/auth" (auth_body id pw) file today =
  match find (credentials_match (strip id) pw) (load_users file) with
  | Some m =>
      (Auth_ok (u_id m) (u_role m)
               (match u_created m with Some c => c | None => "" end), None)
  | None => (Refused 401 Invalid_credentials, None)
  end.
Proof.
  unfold do_POST. cbv zeta.
  change (before_query "/api/auth") with "/api/auth".
  rewrite String.eqb_refl. cbn [auth_body b_id b_pw].
  now rewrite !str_or_some.
Qed.

Lemma no_same_name_no_match (uid pw : string) (l : list user) :
  existsb (same_name uid) l = false ->
  forall x, In x l -> credentials_match uid pw x = false.
Proof.
  intros He x Hx. unfold credentials_match.
  destruct (String.eqb (lower (u_id x)) (lower uid)) eqn:E; [|reflexivity].
  exfalso. assert (existsb (same_name uid) l = true) as Ht.
  { apply existsb_exists. exists x. now split. }
  congruence.
Qed.

(** X15.  A user added with reply 200 can log in at once if [save_users]
    wrote the file: on the file so written, [/api/auth] with the id and
    password of the request answers 200 with the stripped id, the role
    (guest when the request names none) and the creation date; the stored
    id has at least 3 characters, the password at least 6, and the role is
    not empty. *)
Theorem added_user_can_log_in
        (raw_path : string) (b : body) (file : option (list user))
        (today today' : string) (l' : list user) :
  do_POST raw_path b file today = (Done, Some l') ->
  before_query raw_path = "/api/users" ->
  do_POST "/api/auth" (auth_body (str_or (b_id b) "") (req_pw b))
          (file_after file (Some l') Written) today'
  = (Auth_ok (req_uid b) (req_role b) today, None) /\
  3 <= String.length (req_uid b) /\
  6 <= String.length (req_pw b) /\
  truthy (req_role b) = true /\
  (b_role b = None -> req_role b = "guest").
Proof.
  intros H Hp. pose proof H as H0.
  destruct (acting_admin_stays _ _ _ _ _ _ H) as (a & Hin & _).
  apply do_POST_saved in H0 as (_ & _ & [Hadd | Hdel]);
    [|destruct Hdel as (Hd & _); rewrite Hp in Hd; discriminate].
  destruct Hadd as (_ & _ & H3 & H6 & He & Hl).
  repeat split; auto.
  - rewrite auth_reply. cbn [file_after].
    rewrite load_users_saved by (intros ->; exact Hin).
    fold (req_uid b). rewrite Hl.
    rewrite find_app_skip by (now apply no_same_name_no_match).
    cbn [find]. unfold credentials_match at 1.
    cbn [new_user u_id u_pw]. rewrite !String.eqb_refl. reflexivity.
  - unfold req_role, str_or. destruct (truthy (strip _)) eqn:E; [exact E|].
    reflexivity.
  - intros Hr. unfold req_role. rewrite Hr. reflexivity.
Qed.

(** X16.  After a deletion answered 200, if [save_users] wrote the file,
    nobody can log in under the deleted name, in any letter case and with
    any password: [/api/auth] on the file so written answers 401. *)
Theorem deleted_user_cannot_log_in
        (raw_path : string) (b : body) (file : option (list user))
        (today today' id pw : string) (l' : list user) :
  do_POST raw_path b file today = (Done, Some l') ->
  before_query raw_path = "/api/users/delete" ->
  lower (strip id) = lower (req_uid b) ->
  do_POST "/api/auth" (auth_body id pw) (file_after file (Some l') Written)
          today'
  = (Refused 401 Invalid_credentials, None).
Proof.
  intros H Hp Hid. pose proof H as H0.
  destruct (acting_admin_stays _ _ _ _ _ _ H) as (a & Hin & _).
  apply do_POST_saved in H0 as (_ & _ & [Hadd | Hdel]);
    [destruct Hadd as (Hd & _); rewrite Hp in Hd; discriminate|].
  destruct Hdel as (_ & _ & _ & Hl).
  rewrite auth_reply. cbn [file_after].
  rewrite load_users_saved by (intros ->; exact Hin).
  rewrite find_all_false; [reflexivity|].
  intros x Hx. rewrite Hl in Hx. apply filter_In in Hx as [_ Hx].
  apply negb_true_iff in Hx. unfold credentials_match.
  rewrite Hid. unfold same_name in Hx. now rewrite Hx.
Qed.

(** *** More on the parser, the scan and the routes *)

Lemma first_eq_cons (m t : string) (parts : list string) :
  String.eqb t m = false ->
  first_eq m (t :: parts) = option_map S (first_eq m parts).
Proof.
  intros H. cbn. now rewrite H.
Qed.

Lemma reading_tmp_cons (t : string) (parts : list string) :
  String.eqb t "TMP" = false ->
  reading_tmp (t :: parts) = reading_tmp parts.
Proof.
  intros H. unfold reading_tmp. rewrite (first_eq_cons _ _ _ H).
  now destruct (first_eq "TMP" parts).
Qed.

Lemma reading_gps_cons (t : string) (parts : list string) :
  String.eqb t "GPS" = false ->
  reading_gps (t :: parts) = reading_gps parts.
Proof.
  intros H. unfold reading_gps. rewrite (first_eq_cons _ _ _ H).
  now destruct (first_eq "GPS" parts).
Qed.

Lemma reading_mpu6050_cons (t : string) (parts : list string) :
  String.eqb t "MPU6050" = false ->
  reading_mpu6050 (t :: parts) = reading_mpu6050 parts.
Proof.
  intros H. unfold reading_mpu6050. rewrite (first_eq_cons _ _ _ H).
  now destruct (first_eq "MPU6050" parts).
Qed.

Lemma reading_ms5611_cons (t : string) (parts : list string) :
  String.eqb t "TMP" = false ->
  String.eqb t "GPS" = false ->
  String.prefix "MS5611" t = false ->
  reading_ms5611 (t :: parts) = reading_ms5611 parts.
Proof.
  intros H1 H2 H3. unfold reading_ms5611.
  rewrite (reading_tmp_cons _ _ H1), (reading_gps_cons _ _ H2).
  cbn [first_prefixed]. rewrite H3.
  now destruct (first_prefixed "MS5611" parts).
Qed.

Lemma readings_skip_leading (pre parts : list string) :
  forallb (fun t => negb (marker_token t)) pre = true ->
  reading_tmp (pre ++ parts) = reading_tmp parts /\
  reading_gps (pre ++ parts) = reading_gps parts /\
  reading_ms5611 (pre ++ parts) = reading_ms5611 parts /\
  reading_mpu6050 (pre ++ parts) = reading_mpu6050 parts.
Proof.
  induction pre as [|t pre IH]; cbn [forallb app]; intros H; [auto|].
  apply andb_prop in H as [Ht Hpre]. apply negb_true_iff in Ht.
  unfold marker_token in Ht.
  apply orb_false_elim in Ht as [Ht H4].
  apply orb_false_elim in Ht as [Ht H3].
  apply orb_false_elim in Ht as [H1 H2].
  destruct (IH Hpre) as (I1 & I2 & I3 & I4).
  rewrite (reading_tmp_cons _ _ H1), (reading_gps_cons _ _ H2),
    (reading_ms5611_cons _ _ H1 H2 H4), (reading_mpu6050_cons _ _ H3).
  auto.
Qed.

(** X17.  Markers are not fixed-position: tokens that stand before the
    first marker of a line and are not markers themselves (battery
    readings, say) do not change what [parse_telem_line] returns. *)
Theorem leading_tokens_are_ignored (l1 l2 : string) (pre : list string) :
  tokens l1 = pre ++ tokens l2 ->
  forallb (fun t => negb (marker_token t)) pre = true ->
  parse_telem_line l1 = parse_telem_line l2.
Proof.
  intros Hl Hpre. rewrite !parse_telem_line_spec, Hl.
  destruct (readings_skip_leading pre (tokens l2) Hpre) as (-> & -> & -> & ->).
  reflexivity.
Qed.

Lemma select_single (m : marker) (x : string) :
  select m [x] =
  if str_in (marker_text m) (strip x) then Some (strip x) else None.
Proof.
  unfold select. cbn [rev app map filter].
  destruct (truthy (strip x)) eqn:Ht; cbn [find].
  - reflexivity.
  - destruct (str_in (marker_text m) (strip x)) eqn:Hs; [|reflexivity].
    apply str_in_truthy in Hs. congruence.
Qed.

Lemma select_cases (m : marker) (lines : list string) :
  match select m lines with
  | Some s => last_with m lines s
  | None => forall l, In l lines -> str_in (marker_text m) (strip l) = false
  end.
Proof.
  induction lines as [|x l0 IH] using rev_ind.
  - cbn. intros l [].
  - rewrite select_app, select_single.
    destruct (str_in (marker_text m) (strip x)) eqn:Hx.
    + exists l0, x, []. repeat split; auto. intros l [].
    + destruct (select m l0) as [s|].
      * destruct IH as (before & line & after & -> & Hs & Hin & Hafter).
        exists before, line, (after ++ [x]). repeat split; auto.
        -- now rewrite <- app_assoc.
        -- intros l Hl. apply in_app_or in Hl as [Hl | [<- | []]]; auto.
      * intros l Hl. apply in_app_or in Hl as [Hl | [<- | []]]; auto.
Qed.

Lemma select_scan_result (m : marker) (lines : list string) :
  scan_result_for m lines (get_default (select m lines) "").
Proof.
  unfold scan_result_for. pose proof (select_cases m lines) as H.
  destruct (select m lines) as [s|] eqn:E; cbn [get_default].
  - now rewrite (select_truthy m lines s E).
  - exact H.
Qed.

(** X18.  When the backward scan ends, each of its three variables holds
    the stripped last line of the file that contains its marker's text, and
    is empty exactly when no line of the file contains that text; the
    early [break] loses nothing. *)
Theorem scan_finds_most_recent (lines : list string) :
  let '(last_ms5611, last_mpu6050, last_tmp) :=
    scan_lines (rev lines) ("", "", "") in
  scan_result_for PressureSensor lines last_ms5611 /\
  scan_result_for Imu lines last_mpu6050 /\
  scan_result_for AmbientTemp lines last_tmp.
Proof.
  rewrite scan_lines_select. repeat split; apply select_scan_result.
Qed.

Lemma before_query_append (p q : string) :
  before_query (p ++ String "?"%char q)%string = before_query p.
Proof.
  induction p as [|c p IH]; cbn.
  - reflexivity.
  - destruct (Ascii.eqb c "?"); [reflexivity | now rewrite IH].
Qed.

(** X19.  [do_POST] routes on the path up to the first question mark:
    whatever follows it changes neither the reply nor what is saved. *)
Theorem query_string_is_ignored
        (p q : string) (b : body) (file : option (list user))
        (today : string) :
  do_POST (p ++ String "?"%char q)%string b file today =
  do_POST p b file today.
Proof.
  unfold do_POST. now rewrite before_query_append.
Qed.


End Proofs.

(** ** Closed examples *)

Ltac conj := repeat match goal with |- _ /\ _ => split end.

(** C1, the claim as stated fails: a handler that reads after the reader's
    second lock section sees the new status with the old pressure reading,
    a snapshot that is neither the one before the pass nor the one after. *)
Lemma torn_read_counterexample :
  In early_snapshot (observations "tok" pressure_pass world0 early_read) /\
  early_snapshot <> latest_telemetry world0 /\
  early_snapshot <>
    latest_telemetry (telemetry_reader_pass "tok" pressure_pass world0) /\
  status early_snapshot = live /\
  status (latest_telemetry world0) = offline /\
  ms5611 early_snapshot = pressure_reading 0 0 0 /\
  ms5611 (latest_telemetry (telemetry_reader_pass "tok" pressure_pass world0))
  = pressure_reading 1 2 3.
Proof.
  conj; try reflexivity.
  - left. reflexivity.
  - intros H. apply (f_equal status) in H. discriminate H.
  - intros H. apply (f_equal (fun t => temp (ms5611 t))) in H.
    vm_compute in H. discriminate H.
Qed.

Lemma readers_see_whole_lock_sections_witness :
  In early_snapshot (observations "tok" pressure_pass world0 early_read) /\
  groupwise_old_or_new (latest_telemetry world0)
    (latest_telemetry (telemetry_reader_pass "tok" pressure_pass world0))
    early_snapshot.
Proof.
  assert (In early_snapshot
             (observations "tok" pressure_pass world0 early_read)) as H
    by (left; reflexivity).
  split; [exact H|].
  exact (proj2 (readers_see_whole_lock_sections
                  "tok" pressure_pass world0 early_read early_snapshot H)).
Defined.

(** C2, the claim as stated fails: TMP 21.5 and GPS altitude 30 are read in
    the pass, from the line before the bare pressure marker; the merged
    pressure reading has temp 0.0 and altitude 0.0. *)
Lemma other_line_counterexample :
  select PressureSensor split_lines = Some "MS5611>" /\
  tokens "MS5611>" = ["MS5611>"] /\
  d_tmp (line_fields (PF := dec) (eol "GPS 10 20 30 TMP 21.5"))
  = Some (43 # 2)%Q /\
  d_gps (line_fields (PF := dec) (eol "GPS 10 20 30 TMP 21.5"))
  = Some (10, 20, 30)%Q /\
  tmp (latest_telemetry (telemetry_reader_pass "tok" split_pass world0))
  = (43 # 2)%Q /\
  ms5611 (latest_telemetry (telemetry_reader_pass "tok" split_pass world0))
  = pressure_reading 0 (4053 # 4) 0 /\
  ms5611 (latest_telemetry (telemetry_reader_pass "tok" split_pass world0))
  <> pressure_reading (43 # 2) (4053 # 4) 30.
Proof.
  conj; try reflexivity.
  intros H. apply (f_equal temp) in H. vm_compute in H. discriminate H.
Qed.

Lemma marker_only_pressure_line_witness :
  ms5611 (latest_telemetry (telemetry_reader_pass "tok" one_line_pass world0))
  = @Build_ms5611_t dec (43 # 2)%Q (@f_std_pressure dec) 30%Q.
Proof.
  exact (marker_only_pressure_line (PF := dec) "tok" one_line_pass world0
           10%Q [pi_line] (strip pi_line) 16 (43 # 2)%Q 10%Q 20%Q 30%Q
           eq_refl eq_refl (Qle_bool_imp_le 10 STALE_TIMEOUT eq_refl) eq_refl
           eq_refl eq_refl eq_refl eq_refl eq_refl).
Defined.

(** C3.  The claim holds of the design and fails on the code at the line
    [MS5611 5.0]: one token follows the pressure marker, fewer than three
    and more than zero, and [parse_telem_line] does not omit the pressure
    field but returns the substitution reading, which its docstring and its
    comment keep for a marker at the end with no values. *)
Theorem one_trailing_token_is_substituted :
  tokens "MS5611 5.0" = ["MS5611"; "5.0"] /\
  parse_telem_line (PF := dec) "MS5611 5.0" =
  Ok {| d_tmp := None; d_gps := None;
        d_ms5611 := Some (pressure_reading 0 (4053 # 4) 0);
        d_mpu6050 := None |} /\
  d_ms5611 (line_fields (PF := dec) "MS5611 5.0") <> None.
Proof.
  conj; try reflexivity.
  intros H. discriminate H.
Qed.

(** C4, the claim as stated fails: the pressure marker with no token after
    it, and the pressure field is present, two of its components zero. *)
Lemma bare_marker_counterexample :
  tokens "MS5611>" = ["MS5611>"] /\
  parse_telem_line (PF := dec) "MS5611>" =
  Ok {| d_tmp := None; d_gps := None;
        d_ms5611 := Some (pressure_reading 0 (4053 # 4) 0);
        d_mpu6050 := None |} /\
  d_ms5611 (line_fields (PF := dec) "MS5611>") <> None.
Proof.
  conj; try reflexivity.
  intros H. discriminate H.
Qed.

(** C5, the claim as stated fails: [parse_telem_line] yields an IMU reading
    on the line selected for the pressure marker, and the pass does not
    merge it. *)
Lemma unmerged_field_counterexample :
  select PressureSensor mixed_lines
  = Some "MPU6050 1 2 3 4 5 6 MS5611 7 8 9" /\
  d_mpu6050 (line_fields (PF := dec) "MPU6050 1 2 3 4 5 6 MS5611 7 8 9")
  = Some (imu_reading 1 2 3 4 5 6) /\
  ms5611 (latest_telemetry (telemetry_reader_pass "tok" mixed_pass world0))
  = pressure_reading 7 8 9 /\
  mpu6050 (latest_telemetry (telemetry_reader_pass "tok" mixed_pass world0))
  = imu_reading 0 0 0 0 0 0 /\
  mpu6050 (latest_telemetry (telemetry_reader_pass "tok" mixed_pass world0))
  <> imu_reading 1 2 3 4 5 6.
Proof.
  conj; try reflexivity.
  intros H. apply (f_equal gx) in H. vm_compute in H. discriminate H.
Qed.

Lemma live_pass_selects_and_merges_witness :
  latest_telemetry (telemetry_reader_pass "tok" mixed_pass world0) =
  @Build_telemetry dec live (Some "2026-01-01T00:00:00+00:00")
    (pressure_reading 7 8 9) (imu_reading 0 0 0 0 0 0) 0%Q
    (@Build_system_t dec 37%Q 48%Q).
Proof.
  exact (proj2 (proj2 (live_pass_selects_and_merges (PF := dec) "tok"
                         mixed_pass world0 10%Q mixed_lines
                         eq_refl eq_refl (Qle_bool_imp_le 10 STALE_TIMEOUT eq_refl)
                         eq_refl))).
Defined.

Lemma staleness_transition_witness :
  let old :=
    latest_telemetry (telemetry_reader_pass "tok" one_line_pass world0) in
  let new := latest_telemetry
               (telemetry_reader_pass "tok" stale_pass
                  (telemetry_reader_pass "tok" one_line_pass world0)) in
  status new = stale /\ ms5611 new = ms5611 old /\
  mpu6050 new = mpu6050 old /\ tmp new = tmp old.
Proof.
  destruct (staleness_transition (PF := dec) "tok" stale_pass
              (telemetry_reader_pass "tok" one_line_pass world0) 300%Q
              eq_refl eq_refl) as [H _].
  destruct (H eq_refl) as (H1 & _ & H2 & H3 & H4).
  cbv zeta. auto.
Defined.



Lemma status_after_first_completed_pass_witness :
  status
    (latest_telemetry
       (telemetry_reader "tok"
          ([unreadable "t0" 999%Q] ++ missing "t1" 1000%Q
             :: [unreadable "t2" 1001%Q]) world0))
  <> offline.
Proof.
  exact (proj1 (proj2 (status_after_first_completed_pass (PF := dec) "tok"
                         [unreadable "t0" 999%Q] [unreadable "t2" 1001%Q]
                         (missing "t1" 1000%Q) eq_refl))).
Defined.

(** C10, the claim as stated fails for the pressure marker: its text occurs
    only inside the longer token [MS5611>], the line is selected, and
    [parse_telem_line] does produce the pressure field, which is merged. *)
Lemma suffixed_marker_counterexample :
  tokens (eol "MS5611> 4 5 6") = ["MS5611>"; "4"; "5"; "6"] /\
  list_in "MS5611" (tokens (eol "MS5611> 4 5 6")) = false /\
  select PressureSensor [eol "MS5611> 4 5 6"] = Some "MS5611> 4 5 6" /\
  d_ms5611 (line_fields (PF := dec) "MS5611> 4 5 6")
  = Some (pressure_reading 4 5 6) /\
  ms5611 (latest_telemetry
            (telemetry_reader_pass "tok" suffixed_marker_pass world0))
  = pressure_reading 4 5 6 /\
  ms5611 (latest_telemetry
            (telemetry_reader_pass "tok" suffixed_marker_pass world0))
  <> ms5611 (latest_telemetry world0).
Proof.
  conj; try reflexivity.
  intros H. apply (f_equal temp) in H. vm_compute in H. discriminate H.
Qed.

Lemma marker_inside_longer_token_witness :
  select AmbientTemp [eol "TMP 21.5"; eol "TMPX 30"] = Some "TMPX 30" /\
  tmp (latest_telemetry (telemetry_reader_pass "tok" tmpx_pass world0))
  = tmp (latest_telemetry world0).
Proof.
  apply (marker_inside_longer_token (PF := dec) "tok" tmpx_pass world0 10%Q
           [eol "TMP 21.5"] [] (eol "TMPX 30") AmbientTemp
           eq_refl eq_refl (Qle_bool_imp_le 10 STALE_TIMEOUT eq_refl) eq_refl eq_refl).
  - intros l [].
  - intros tok [<- | [<- | []]]; reflexivity.
Defined.

(** *** Instances of the further properties *)

Lemma missing_file_pass_witness :
  let old := latest_telemetry (telemetry_reader_pass "tok" one_line_pass world0) in
  let new := latest_telemetry
               (telemetry_reader_pass "tok" no_file_pass
                  (telemetry_reader_pass "tok" one_line_pass world0)) in
  status new = no_file /\ ms5611 new = ms5611 old /\
  mpu6050 new = mpu6050 old /\ tmp new = tmp old.
Proof.
  destruct (missing_file_pass (PF := dec) "tok" no_file_pass
              (telemetry_reader_pass "tok" one_line_pass world0) eq_refl)
    as (_ & _ & H1 & _ & _ & H2 & H3 & H4).
  cbv zeta. auto.
Defined.

Lemma aborted_pass_witness :
  latest_telemetry (telemetry_reader_pass "tok" failed_pass world0) =
  with_system (host_metrics failed_pass) (latest_telemetry world0) /\
  gist_calls (telemetry_reader_pass "tok" failed_pass world0) = [].
Proof.
  destruct (aborted_pass (PF := dec) "tok" failed_pass world0 eq_refl)
    as (H1 & _ & H2 & _).
  split; [exact H1 | exact H2].
Defined.

Lemma completed_pass_publishes_its_snapshot_witness :
  local_json (telemetry_reader_pass "tok" one_line_pass world0) =
  Some (latest_telemetry (telemetry_reader_pass "tok" one_line_pass world0)).
Proof.
  exact (proj1 (completed_pass_publishes_its_snapshot (PF := dec) "tok"
                  one_line_pass world0 eq_refl)).
Defined.

Lemma sensors_survive_quiet_passes_witness :
  ms5611 (latest_telemetry
            (telemetry_reader "tok" [stale_pass; no_file_pass; failed_pass]
               (telemetry_reader_pass "tok" one_line_pass world0)))
  = ms5611 (latest_telemetry
              (telemetry_reader_pass "tok" one_line_pass world0)).
Proof.
  exact (proj1 (sensors_survive_quiet_passes (PF := dec) "tok"
                  [stale_pass; no_file_pass; failed_pass]
                  (telemetry_reader_pass "tok" one_line_pass world0)
                  eq_refl)).
Defined.

Lemma live_pass_without_markers_witness :
  latest_telemetry (telemetry_reader_pass "tok" gps_only_pass world0) =
  with_timestamp (Some (e_utcnow gps_only_pass))
    (with_status live
       (with_system (host_metrics gps_only_pass) (latest_telemetry world0))).
Proof.
  apply (live_pass_without_markers (PF := dec) "tok" gps_only_pass world0
           10%Q [eol "GPS 10 20 30"] eq_refl eq_refl
           (Qle_bool_imp_le 10 STALE_TIMEOUT eq_refl) eq_refl).
  intros m l [<- | []]. destruct m; reflexivity.
Defined.

Lemma due_push_is_made_witness :
  gist_calls (telemetry_reader_pass (_load_token env_token)
                one_line_pass world0)
  = [(e_now one_line_pass,
      latest_telemetry
        (telemetry_reader_pass (_load_token env_token) one_line_pass world0))].
Proof.
  exact (proj1 (due_push_is_made (PF := dec) env_token one_line_pass world0
                  eq_refl eq_refl
                  (Qle_bool_imp_le GIST_PUSH_INTERVAL
                     (e_now one_line_pass - last_gist_push world0) eq_refl))).
Defined.

Lemma gpu_temp_of_vcgencmd_line_witness :
  get_gpu_temp (PF := dec) (Ok ("temp=" ++ "48.3" ++ degrees_suffix)%string)
  = (483 # 10)%Q.
Proof.
  exact (gpu_temp_of_vcgencmd_line (PF := dec) "48.3" eq_refl eq_refl).
Defined.

Lemma saving_needs_admin_credentials_witness :
  exists a, In a (load_users None) /\
            lower (u_id a) = lower (req_admin_id delete_request) /\
            u_pw a = Some (req_admin_pw delete_request) /\
            u_role a = "admin".
Proof.
  exact (proj2 (saving_needs_admin_credentials
                  "/api/users/delete?from=panel" delete_request None
                  "2026-03-01" Done [owner] eq_refl)).
Defined.

Lemma protected_user_is_never_removed_witness : In owner [owner].
Proof.
  apply (protected_user_is_never_removed "/api/users/delete" delete_request
           None "2026-03-01" Done [owner] owner eq_refl).
  - left. reflexivity.
  - reflexivity.
Defined.

Lemma saved_list_is_loaded_back_witness :
  load_users (file_after None (Some (DEF_USERS ++ [pilot])) Written)
  = DEF_USERS ++ [pilot].
Proof.
  exact (proj1 (saved_list_is_loaded_back "/api/users" add_request None
                  "2026-03-01" Done (DEF_USERS ++ [pilot]) eq_refl)).
Defined.

Lemma names_stay_distinct_witness : NoDup (names (DEF_USERS ++ [pilot])).
Proof.
  apply (names_stay_distinct "/api/users" add_request None "2026-03-01"
           Done (DEF_USERS ++ [pilot]) eq_refl).
  constructor; [intros [H | []]; discriminate H|].
  constructor; [intros [] | constructor].
Defined.

Lemma added_user_can_log_in_witness :
  do_POST "/api/auth" (auth_body " Pilot " "secret1")
          (Some (DEF_USERS ++ [pilot])) "2026-03-02"
  = (Auth_ok "Pilot" "guest" "2026-03-01", None).
Proof.
  exact (proj1 (added_user_can_log_in "/api/users" add_request None
                  "2026-03-01" "2026-03-02" (DEF_USERS ++ [pilot])
                  eq_refl eq_refl)).
Defined.

Lemma deleted_user_cannot_log_in_witness :
  do_POST "/api/auth" (auth_body "GUEST" "guest123") (Some [owner])
          "2026-03-02"
  = (Refused 401 Invalid_credentials, None).
Proof.
  exact (deleted_user_cannot_log_in "/api/users/delete" delete_request None
           "2026-03-01" "2026-03-02" "GUEST" "guest123" [owner]
           eq_refl eq_refl eq_refl).
Defined.

Lemma leading_tokens_are_ignored_witness :
  parse_telem_line (PF := dec) "BAT 4.50 0.0 TMP 21.5" =
  parse_telem_line (PF := dec) "TMP 21.5".
Proof.
  exact (leading_tokens_are_ignored (PF := dec) "BAT 4.50 0.0 TMP 21.5"
           "TMP 21.5" ["BAT"; "4.50"; "0.0"] eq_refl eq_refl).
Defined.

(** *** Closed examples for the revised claims *)

(** C6, the claim as stated fails: the log file is there and fresh again
    (age 1 s), but [open] raises; the pass is cut short before it stamps
    live, and status stays stale. *)
Lemma fresh_unreadable_counterexample :
  let w :=
    telemetry_reader "tok" [one_line_pass; stale_pass] world0 in
  status (latest_telemetry w) = stale /\
  e_exists fresh_unreadable_pass = true /\
  e_file_age fresh_unreadable_pass = Ok 1%Q /\
  Qle_bool 1 STALE_TIMEOUT = true /\
  status (latest_telemetry (telemetry_reader_pass "tok" fresh_unreadable_pass w))
  = stale /\
  status (latest_telemetry (telemetry_reader_pass "tok" fresh_unreadable_pass w))
  <> live.
Proof.
  cbv zeta.
  set (s := status (latest_telemetry
                      (telemetry_reader_pass "tok" fresh_unreadable_pass _))).
  assert (E : s = stale) by reflexivity.
  rewrite E. conj; try reflexivity.
  intros H. discriminate H.
Qed.

(** C7.  The claim holds of the design and fails on the code: a request is
    due at clock reading 1000 and is made, an exception leaves
    [push_to_gist] through its handler, the update of [last_gist_push] is
    skipped, and the pass one second later makes a second request: two
    requests in the window [[1000, 1005)]. *)
Theorem escaped_exception_defeats_rate_limit :
  let w1 := telemetry_reader_pass "tok" escaped_push_pass world0 in
  let w2 := telemetry_reader_pass "tok" pass_after_escape w1 in
  push_times w1 = [1000%Q] /\
  last_gist_push w1 = 0%Q /\
  push_times w2 = [1001%Q; 1000%Q] /\
  pushes_in_window 1000 w2 = 2.
Proof.
  cbv zeta. conj; reflexivity.
Qed.

(** C9, the claim as stated fails: a pass that cannot open the log file
    rewrites neither status nor timestamp; the timestamp is still that of
    the pass before. *)
Lemma unstamped_cycle_counterexample :
  let w := telemetry_reader_pass "tok" one_line_pass world0 in
  let w' := telemetry_reader_pass "tok" failed_pass w in
  timestamp (latest_telemetry w) = Some "2026-01-01T00:00:00+00:00" /\
  e_utcnow failed_pass = "2026-01-01T00:00:02+00:00" /\
  timestamp (latest_telemetry w') = Some "2026-01-01T00:00:00+00:00" /\
  timestamp (latest_telemetry w') <> Some (e_utcnow failed_pass).
Proof.
  cbv zeta.
  set (t := timestamp (latest_telemetry
                         (telemetry_reader_pass "tok" failed_pass _))).
  assert (E : t = Some "2026-01-01T00:00:00+00:00") by reflexivity.
  rewrite E. conj; try reflexivity.
  change (e_utcnow failed_pass) with "2026-01-01T00:00:02+00:00".
  intros H. discriminate H.
Qed.

Lemma last_push_is_latest_request_witness :
  let w := telemetry_reader (_load_token env_token)
             [one_line_pass; same_file_next_pass] world0 in
  last_gist_push w = hd 0%Q (push_times w).
Proof.
  exact (last_push_is_latest_request (PF := dec) env_token
           [one_line_pass; same_file_next_pass] eq_refl).
Defined.

Lemma rate_limit_while_pushes_return_witness :
  pushes_in_window 1000
    (telemetry_reader "tok" [one_line_pass; same_file_next_pass] world0) <= 1.
Proof.
  exact (rate_limit_while_pushes_return (PF := dec) "tok"
           [one_line_pass; same_file_next_pass] 1000%Q eq_refl).
Defined.
